(** * go-pb: the paste service and its HTTP front end

    A shallow embedding of [src/api/paste/sqldb/sqldb.go] (the database
    backed [PasteService]) and of [src/api/http/http.go] (the gin handlers),
    together with the parts of the Go standard library they call
    ([strconv.Atoi], package [time], package [math/rand]) and an abstract
    relational store standing for gorm.

    Conventions.
    - Go [int], [int64] and [uint64] are integers in [Z]; the embedding is
      for a 64-bit platform and every place where the service itself does
      machine arithmetic writes the wrap-around out ([wrap64], [wrapU64]).
    - A Go [string] is a sequence of bytes: [String.string], whose
      characters are 8-bit.
    - What a method of the service returns, Go's [(value, error)], is a
      [result]; a nil-pointer dereference is the outcome [Panic].  Library
      functions return Go's pair, or a sum where only one side is read. *)

From Stdlib Require Import ZArith String Ascii List Lia Bool.
From stdpp Require Import base option gmap.

Open Scope string_scope.
Open Scope Z_scope.

(** ** Machine integers *)

Definition wrap64 (z : Z) : Z := (z + 2 ^ 63) mod 2 ^ 64 - 2 ^ 63.
Definition wrapU64 (z : Z) : Z := z mod 2 ^ 64.

Definition maxInt64 : Z := 2 ^ 63 - 1.

(** ** Go string primitives used by the service *)

(** [len(s)] *)
Definition len (s : string) : Z := Z.of_nat (String.length s).

(** [s[:len(s)-1]], for a non-empty [s] *)
Definition init (s : string) : string :=
  substring 0 (String.length s - 1) s.

(** [s[len(s)-1]], for a non-empty [s]; [None] is Go's index panic *)
Definition last_byte (s : string) : option ascii :=
  String.get (String.length s - 1) s.

Definition byte_val (c : ascii) : Z := Z.of_N (N_of_ascii c).

(** ** strconv.Atoi *)

Module strconv.

Inductive Cause := ErrSyntax | ErrRange.

(** [*strconv.NumError] *)
Record NumError := { Func : string; Num : string; Err : Cause }.

(** [ch -= '0'; if ch > 9 { syntax error }] on a byte *)
Definition digit (c : ascii) : option Z :=
  let ch := (byte_val c - 48) mod 256 in
  if 9 <? ch then None else Some ch.

(** The digit loop of Atoi's fast path: [n = n*10 + int(ch)]. *)
Fixpoint fast_loop (s : string) (n : Z) : option Z :=
  match s with
  | EmptyString => Some n
  | String c r =>
      match digit c with
      | None => None
      | Some d => fast_loop r (n * 10 + d)
      end
  end.

Definition maxUint64 : Z := 2 ^ 64 - 1.
Definition cutoff10 : Z := maxUint64 / 10 + 1.

(** The digit loop of [ParseUint(s, 10, 64)]: the accumulated value and
    the error, if any. *)
Fixpoint ParseUint_loop (s : string) (n : Z) : Z * option Cause :=
  match s with
  | EmptyString => (n, None)
  | String c r =>
      match digit c with
      | None => (0, Some ErrSyntax)
      | Some d =>
          if cutoff10 <=? n then (maxUint64, Some ErrRange)
          else
            let m := n * 10 in
            let n1 := wrapU64 (m + d) in
            if n1 <? m then (maxUint64, Some ErrRange)
            else ParseUint_loop r n1
      end
  end.

Definition ParseUint (s : string) : Z * option Cause :=
  match s with
  | EmptyString => (0, Some ErrSyntax)
  | _ => ParseUint_loop s 0
  end.

Definition is_sign (c : ascii) : bool :=
  (byte_val c =? 43) || (byte_val c =? 45).

Definition is_minus (c : ascii) : bool := byte_val c =? 45.

(** [ParseInt(s, 10, 0)] on a 64-bit platform. *)
Definition ParseInt (s0 : string) : Z * option Cause :=
  match s0 with
  | EmptyString => (0, Some ErrSyntax)
  | String c r =>
      let neg := is_minus c in
      let s := if is_sign c then r else s0 in
      match ParseUint s with
      | (_, Some ErrSyntax) => (0, Some ErrSyntax)
      | (un, _) =>
          let cutoff := 2 ^ 63 in
          if negb neg && (cutoff <=? un) then (cutoff - 1, Some ErrRange)
          else if neg && (cutoff <? un) then (- cutoff, Some ErrRange)
          else (if neg then wrap64 (- wrap64 un) else wrap64 un, None)
      end
  end.

(** [strconv.Atoi]: the fast path for short inputs, [ParseInt] otherwise.
    The result is Go's pair of the value and the error. *)
Definition Atoi (s0 : string) : Z * option NumError :=
  let fail c := Some {| Func := "Atoi"; Num := s0; Err := c |} in
  if (0 <? len s0) && (len s0 <? 19) then
    match s0 with
    | EmptyString => (0, fail ErrSyntax)
    | String c r =>
        let s := if is_sign c then r else s0 in
        if is_sign c && (len s <? 1) then (0, fail ErrSyntax)
        else
          match fast_loop s 0 with
          | None => (0, fail ErrSyntax)
          | Some n => (if is_minus c then - n else n, None)
          end
    end
  else
    match ParseInt s0 with
    | (i64, Some c) => (i64, fail c)
    | (i64, None) => (i64, None)
    end.

End strconv.

(** ** Package time

    A [Time] is an instant with nanosecond precision, held as the number of
    seconds elapsed since January 1, year 1, 00:00:00 UTC (Go's internal
    epoch, the instant of the zero [time.Time{}]) and the nanoseconds within
    that second.  Go computes calendar fields from an "absolute" second count
    that starts at a year congruent to 1 modulo 400 so that all its divisions
    are on non-negative numbers; here the same computations are written with
    floor division from year 1, which is the same calendar.  The embedding
    covers the UTC location and leaves the monotonic clock reading out, and
    it is exact as long as no 64-bit intermediate of the library overflows
    (years within a few hundred thousand of the present are far inside). *)

Module time.

(** [time.Duration]: an int64 count of nanoseconds. *)
Definition Nanosecond : Z := 1.
Definition Second : Z := 1000000000 * Nanosecond.
Definition Minute : Z := 60 * Second.
Definition Hour : Z := 60 * Minute.

Record Time := { sec : Z; nsec : Z }.

(** [time.Time{}] *)
Definition zero : Time := {| sec := 0; nsec := 0 |}.

Definition IsZero (t : Time) : bool := (sec t =? 0) && (nsec t =? 0).

Definition After (t u : Time) : bool :=
  (sec u <? sec t) || ((sec t =? sec u) && (nsec u <? nsec t)).

Definition Before (t u : Time) : bool :=
  (sec t <? sec u) || ((sec t =? sec u) && (nsec t <? nsec u)).

(** Seconds from January 1, year 1 to January 1, 1970. *)
Definition unixToInternal : Z :=
  (1969 * 365 + 1969 / 4 - 1969 / 100 + 1969 / 400) * 86400.

Definition UnixNano (t : Time) : Z :=
  wrap64 ((sec t - unixToInternal) * 1000000000 + nsec t).

(** [t.Add(d)]; Go's [/] and [%] truncate towards zero. *)
Definition Add (t : Time) (d : Z) : Time :=
  let dsec := Z.quot d 1000000000 in
  let ns := nsec t + Z.rem d 1000000000 in
  if 1000000000 <=? ns then
    {| sec := sec t + (dsec + 1); nsec := ns - 1000000000 |}
  else if ns <? 0 then
    {| sec := sec t + (dsec - 1); nsec := ns + 1000000000 |}
  else {| sec := sec t + dsec; nsec := ns |}.

Definition daysPer400Years : Z := 365 * 400 + 97.
Definition daysPer100Years : Z := 365 * 100 + 24.
Definition daysPer4Years : Z := 365 * 4 + 1.
Definition secondsPerDay : Z := 86400.

Definition isLeap (year : Z) : bool :=
  (Z.rem year 4 =? 0) &&
  (negb (Z.rem year 100 =? 0) || (Z.rem year 400 =? 0)).

(** [daysBefore[m]]: days in a non-leap year before month [m+1]. *)
Definition daysBefore (m : Z) : Z :=
  nth (Z.to_nat m)
    [0; 31; 59; 90; 120; 151; 181; 212; 243; 273; 304; 334; 365] 0.

(** Days from January 1, year 1 to January 1 of [year]. *)
Definition daysSinceEpoch (year : Z) : Z :=
  let y := year - 1 in
  let n := y / 400 in
  let y := y - 400 * n in
  let d := daysPer400Years * n in
  let n := y / 100 in
  let y := y - 100 * n in
  let d := d + daysPer100Years * n in
  let n := y / 4 in
  let y := y - 4 * n in
  let d := d + daysPer4Years * n in
  let n := y in
  d + 365 * n.

(** [norm(hi, lo, base)]: carry [lo] into [hi] so that [0 <= lo < base]. *)
Definition norm (hi lo base : Z) : Z * Z :=
  let '(hi, lo) :=
    if lo <? 0 then
      let n := Z.quot (- lo - 1) base + 1 in (hi - n, lo + n * base)
    else (hi, lo) in
  if base <=? lo then
    let n := Z.quot lo base in (hi + n, lo - n * base)
  else (hi, lo).

(** [time.Date(year, month, day, hour, min, sec, nsec, time.UTC)] *)
Definition Date (year month day hour min sec nsec : Z) : Time :=
  let m := month - 1 in
  let '(year, m) := norm year m 12 in
  let month := m + 1 in
  let '(sec, nsec) := norm sec nsec 1000000000 in
  let '(min, sec) := norm min sec 60 in
  let '(hour, min) := norm hour min 60 in
  let '(day, hour) := norm day hour 24 in
  let d := daysSinceEpoch year in
  let d := d + daysBefore (month - 1) in
  let d := if isLeap year && (3 <=? month) then d + 1 else d in
  let d := d + (day - 1) in
  let abs := d * secondsPerDay in
  let abs := abs + (hour * 3600 + min * 60 + sec) in
  {| sec := abs; nsec := nsec |}.

(** [absDate]: the year and the day within the year of a day count. *)
Definition absYearDay (days : Z) : Z * Z :=
  let d := days in
  let n := d / daysPer400Years in
  let y := 400 * n in
  let d := d - daysPer400Years * n in
  let n := d / daysPer100Years in
  let n := n - Z.shiftr n 2 in
  let y := y + 100 * n in
  let d := d - daysPer100Years * n in
  let n := d / daysPer4Years in
  let y := y + 4 * n in
  let d := d - daysPer4Years * n in
  let n := d / 365 in
  let n := n - Z.shiftr n 2 in
  let y := y + n in
  let d := d - 365 * n in
  (y + 1, d).

(** [absDate]: month and day of the month from the day of the year. *)
Definition monthDay (year yday : Z) : Z * Z :=
  let day := yday in
  if isLeap year && (day =? 31 + 29 - 1) then (2, 29)
  else
    let day := if isLeap year && (31 + 29 - 1 <? day) then day - 1 else day in
    let month := Z.quot day 31 in
    let e := daysBefore (month + 1) in
    let '(month, begin) :=
      if e <=? day then (month + 1, e) else (month, daysBefore month) in
    (month + 1, day - begin + 1).

(** [t.Date()] *)
Definition date (t : Time) : Z * Z * Z :=
  let '(year, yday) := absYearDay (sec t / secondsPerDay) in
  let '(month, day) := monthDay year yday in
  (year, month, day).

(** [t.Clock()] *)
Definition clock (t : Time) : Z * Z * Z :=
  let s := sec t mod secondsPerDay in
  let hour := Z.quot s 3600 in
  let s := s - hour * 3600 in
  let min := Z.quot s 60 in
  let s := s - min * 60 in
  (hour, min, s).

(** [t.AddDate(years, months, days)]; the additions are on Go [int]s. *)
Definition AddDate (t : Time) (years months days : Z) : Time :=
  let '(year, month, day) := date t in
  let '(hour, min, s) := clock t in
  Date (wrap64 (year + years)) (wrap64 (month + months))
       (wrap64 (day + days)) hour min s (nsec t).

End time.

(** ** Package math/rand

    The service draws paste ids from the package-level generator.  The
    generator is deterministic: its outputs are a function of the seed and
    of how many values were drawn since seeding.  That function (Go's
    additive lagged Fibonacci source) is the field [algorithm]; seeding and
    drawing never change it. *)

Module rand.

Record Rand := {
  algorithm : Z -> nat -> Z;  (* seed -> index of the draw -> raw output *)
  seed : Z;
  drawn : nat
}.

(** [rand.Seed(seed)] *)
Definition Seed (r : Rand) (s : Z) : Rand :=
  {| algorithm := algorithm r; seed := s; drawn := 0 |}.

(** [rand.Uint64()] *)
Definition Uint64 (r : Rand) : Z * Rand :=
  (wrapU64 (algorithm r (seed r) (drawn r)),
   {| algorithm := algorithm r; seed := seed r; drawn := S (drawn r) |}).

Definition rngMask : Z := Z.shiftl 1 63 - 1.

(** [rand.Int63()]: [int64(rng.Uint64() & rngMask)] *)
Definition Int63 (r : Rand) : Z * Rand :=
  let '(v, r') := Uint64 r in (Z.land v rngMask, r').

End rand.

(** ** Package api: the entities

    The declarations of [api.Paste], [api.PasteForm] and [api.User] are not
    part of the sources at hand; the records below have the fields that
    [sqldb.go], [http.go] and [auth_test.go] read and write. *)

Module api.

Record User := { UserID_ : Z; Username : string; Email : string }.

Definition noUser : User :=
  {| UserID_ := 0; Username := ""; Email := "" |}.

Record Paste := {
  ID : Z;
  Title : string;
  Body : string;
  Expires : time.Time;
  DeleteAfterRead : bool;
  Privacy : string;
  Password : string;
  Created : time.Time;
  Syntax : string;
  UserID : Z;
  User_ : User
}.

(** [api.Paste{}] *)
Definition emptyPaste : Paste :=
  {| ID := 0; Title := ""; Body := ""; Expires := time.zero;
     DeleteAfterRead := false; Privacy := ""; Password := "";
     Created := time.zero; Syntax := ""; UserID := 0; User_ := noUser |}.

Module Form.
Record PasteForm := {
  Title : string;
  Body : string;
  Expires : string;
  DeleteAfterRead : bool;
  Privacy : string;
  Password : string;
  Syntax : string;
  UserID : Z
}.
End Form.

End api.

(** ** The store behind gorm

    A database handle is modelled by the data it gives access to: the
    [pastes] table keyed by its primary key, the [users] table, whether the
    database enforces the foreign key of [pastes.user_id], and whether the
    connection is failing ([outage] holds the driver's message).  A row keeps
    the columns of a paste and a nullable [user_id].  Restrictions: a paste
    whose primary key is the zero value is inserted under that key (gorm
    would let the database choose one), and deletion is physical. *)

Module gorm.

Inductive error :=
| ErrRecordNotFound
| ErrDuplicatedKey          (* primary key constraint failed *)
| ErrForeignKeyViolated     (* foreign key constraint failed *)
| ErrDriver (msg : string). (* the connection or the driver failed *)

Record Row := { columns : api.Paste; user_id : option Z }.

Record DB := {
  pastes : gmap Z Row;
  users : gmap Z api.User;
  foreign_keys : bool;
  outage : option string
}.

Definition with_pastes (d : DB) (m : gmap Z Row) : DB :=
  {| pastes := m; users := users d;
     foreign_keys := foreign_keys d; outage := outage d |}.

(** Scanning a row into an [api.Paste], with the joined user. *)
Definition scan (d : DB) (r : Row) : api.Paste :=
  let p := columns r in
  {| api.ID := api.ID p; api.Title := api.Title p; api.Body := api.Body p;
     api.Expires := api.Expires p;
     api.DeleteAfterRead := api.DeleteAfterRead p;
     api.Privacy := api.Privacy p; api.Password := api.Password p;
     api.Created := api.Created p; api.Syntax := api.Syntax p;
     api.UserID := default 0 (user_id r);
     api.User_ := default api.noUser (user_id r ≫= λ u, users d !! u) |}.

(** [db.Joins("User").First(&paste, id).Error] and the paste read. *)
Definition First (d : DB) (id : Z) : error + api.Paste :=
  match outage d with
  | Some msg => inl (ErrDriver msg)
  | None =>
      match pastes d !! id with
      | None => inl ErrRecordNotFound
      | Some r => inr (scan d r)
      end
  end.

(** [db.Create(&paste).Error], or [db.Omit("user_id").Create(&paste).Error]
    when [omit_user_id] is set; the second component is the store after
    the statement. *)
Definition Create (d : DB) (omit_user_id : bool) (p : api.Paste)
  : option error * DB :=
  match outage d with
  | Some msg => (Some (ErrDriver msg), d)
  | None =>
      match pastes d !! api.ID p with
      | Some _ => (Some ErrDuplicatedKey, d)
      | None =>
          let uid := if omit_user_id then None else Some (api.UserID p) in
          let orphan :=
            match uid with
            | Some u => foreign_keys d && bool_decide (users d !! u = None)
            | None => false
            end in
          if orphan then (Some ErrForeignKeyViolated, d)
          else
            (None,
             with_pastes d
               (<[api.ID p := {| columns := p; user_id := uid |}]> (pastes d)))
      end
  end.

(** [db.Delete(&api.Paste{}, id).Error]: deleting no row is not an error. *)
Definition Delete (d : DB) (id : Z) : option error * DB :=
  match outage d with
  | Some msg => (Some (ErrDriver msg), d)
  | None => (None, with_pastes d (delete id (pastes d)))
  end.

(** Scanning a row into an [api.Paste] without a join: the [User] field
    keeps its zero value. *)
Definition scan_columns (r : Row) : api.Paste :=
  let p := columns r in
  {| api.ID := api.ID p; api.Title := api.Title p; api.Body := api.Body p;
     api.Expires := api.Expires p;
     api.DeleteAfterRead := api.DeleteAfterRead p;
     api.Privacy := api.Privacy p; api.Password := api.Password p;
     api.Created := api.Created p; api.Syntax := api.Syntax p;
     api.UserID := default 0 (user_id r);
     api.User_ := api.noUser |}.

(** [db.Find(&pastes, "user_id IS NULL")] for [owner = None] and
    [db.Find(&pastes, "user_id=?", uid)] for [owner = Some uid]: the error
    and the slice read.  The statement has no ORDER BY; the rows come here
    in the order of the keys, and the properties proved of the result do not
    depend on the order.  On an error the slice is left as it was, nil. *)
Definition Find (d : DB) (owner : option Z) : option error * list api.Paste :=
  match outage d with
  | Some msg => (Some (ErrDriver msg), [])
  | None =>
      (None,
       scan_columns <$>
         filter (λ r, user_id r = owner) (map_to_list (pastes d)).*2)
  end.

End gorm.

(** ** Package bcrypt, as far as the service uses it *)

Module bcrypt.
Definition DefaultCost : Z := 10.
Inductive error := Failure (msg : string).
End bcrypt.

(** ** Results *)

(** The error values the service returns. *)
Inductive error :=
| GetNoConnection
    (* errors.New("Get: no database connection") *)
| GetDatabaseError (err : gorm.error)
    (* fmt.Errorf("Get: database error: %w", err) *)
| WrongDurationFormat (expires : string) (err : strconv.NumError)
    (* fmt.Errorf("wrong duration format: %s, error: %w", p.Expires, err) *)
| UnknownDurationFormat (expires : string)
    (* fmt.Errorf("unknown duration format: %s", p.Expires) *)
| HashError (err : bcrypt.error)
    (* the error of bcrypt.GenerateFromPassword, returned as it is *)
| StoreError (err : gorm.error).
    (* the error of a gorm statement, returned as it is *)

Inductive result (A : Type) :=
| Ok (a : A)
| Err (e : error)
| Panic.
Arguments Ok {A} a.
Arguments Err {A} e.
Arguments Panic {A}.

(** ** Package sqldb: PasteService *)

Module sqldb.

Record SvcOptions := {
  DBConnection : option gorm.DB;
  DBAutoMigrate : bool
}.

Record PasteService := {
  db : option gorm.DB;
  Options : SvcOptions
}.

Definition with_db (s : PasteService) (d : gorm.DB) : PasteService :=
  {| db := Some d; Options := Options s |}.

(** [New]: [now] is the reading of [time.Now()] that seeds the generator.
    [AutoMigrate] changes the schema, not the rows; on a nil handle it
    panics. *)
Definition New (opts : SvcOptions) (now : time.Time) (rng : rand.Rand)
  : result PasteService * rand.Rand :=
  let rng := rand.Seed rng (time.UnixNano now) in
  if DBAutoMigrate opts && bool_decide (DBConnection opts = None)
  then (Panic, rng)
  else (Ok {| db := DBConnection opts; Options := opts |}, rng).

(** [Get]: [Ok None] is Go's [(nil, nil)], the paste is not found. *)
Definition Get (s : PasteService) (id : Z) : result (option api.Paste) :=
  match db s with
  | None => Err GetNoConnection
  | Some d =>
      match gorm.First d id with
      | inl gorm.ErrRecordNotFound => Ok None
      | inl err => Err (GetDatabaseError err)
      | inr paste => Ok (Some paste)
      end
  end.

(** Lines 82-107 of [Create]: the expiration instant of a form submitted
    at [created]. *)
Definition expiration (p_Expires : string) (created : time.Time)
  : error + time.Time :=
  let expires := time.zero in
  if negb (String.eqb p_Expires "never") && (1 <? len p_Expires) then
    match strconv.Atoi (init p_Expires) with
    | (_, Some err) => inl (WrongDurationFormat p_Expires err)
    | (dur, None) =>
        match last_byte p_Expires with
        | None => inr expires (* unreachable: the string is not empty *)
        | Some u =>
            if (u =? "m")%char then
              inr (time.Add created (wrap64 (dur * time.Minute)))
            else if (u =? "h")%char then
              inr (time.Add created (wrap64 (dur * time.Hour)))
            else if (u =? "d")%char then
              inr (time.AddDate created 0 0 dur)
            else if (u =? "w")%char then
              inr (time.AddDate created 0 0 (wrap64 (dur * 7)))
            else if (u =? "M")%char then
              inr (time.AddDate created 0 dur 0)
            else if (u =? "y")%char then
              inr (time.AddDate created dur 0 0)
            else inl (UnknownDurationFormat p_Expires)
        end
    end
  else inr expires.

Section Create.

(** [bcrypt.GenerateFromPassword(password, cost)], given the random
    bytes it reads for the salt. *)
Variable GenerateFromPassword :
  string -> string -> Z -> bcrypt.error + string.

(** Lines 109-115 of [Create]: the password as it is stored. *)
Definition hashPassword (salt p_Password : string)
  : bcrypt.error + string :=
  if negb (String.eqb p_Password "") then
    GenerateFromPassword salt p_Password bcrypt.DefaultCost
  else inr p_Password.

(** [Create]: [now] is the reading of [time.Now()], [salt] the entropy
    handed to bcrypt.  Returns the result, the service (its store) and
    the generator after the call. *)
Definition Create (s : PasteService) (rng : rand.Rand) (now : time.Time)
    (salt : string) (p : api.Form.PasteForm)
  : result api.Paste * PasteService * rand.Rand :=
  let created := now in
  match expiration (api.Form.Expires p) created with
  | inl e => (Err e, s, rng)
  | inr expires =>
      match hashPassword salt (api.Form.Password p) with
      | inl err => (Err (HashError err), s, rng)
      | inr p_Password =>
          let '(id, rng) := rand.Int63 rng in
          let newPaste :=
            {| api.ID := id;
               api.Title := api.Form.Title p;
               api.Body := api.Form.Body p;
               api.Expires := expires;
               api.DeleteAfterRead := api.Form.DeleteAfterRead p;
               api.Privacy := api.Form.Privacy p;
               api.Password := p_Password;
               api.Created := created;
               api.Syntax := api.Form.Syntax p;
               api.UserID := api.Form.UserID p;
               api.User_ := api.noUser |} in
          match db s with
          | None => (Panic, s, rng)
          | Some d =>
              let '(err, d') :=
                if api.Form.UserID p =? 0
                then gorm.Create d true newPaste
                else gorm.Create d false newPaste in
              match err with
              | Some err => (Err (StoreError err), with_db s d', rng)
              | None => (Ok newPaste, with_db s d', rng)
              end
          end
      end
  end.

End Create.

(** [Delete]: the error of the statement, as it is. *)
Definition Delete (s : PasteService) (id : Z)
  : result unit * PasteService :=
  match db s with
  | None => (Panic, s)
  | Some d =>
      match gorm.Delete d id with
      | (Some err, d') => (Err (StoreError err), with_db s d')
      | (None, d') => (Ok tt, with_db s d')
      end
  end.

(** [List]: the error of the statement is not looked at. *)
Definition List (s : PasteService) (uid : Z) : result (list api.Paste) :=
  match db s with
  | None => Panic
  | Some d =>
      if uid =? 0 then Ok (snd (gorm.Find d None))
      else Ok (snd (gorm.Find d (Some uid)))
  end.

End sqldb.

(** ** Package http: the gin handlers

    [http.go] is written against the interface [api.PasteService] with the
    methods [Paste], [Create] and [Delete]; paste ids are [uint64] there.
    The interface is a type class over the state [S] of an implementation
    and its error type [E].  A method returns what Go returns, and the state
    after the call; [Create] takes a pointer, so it also returns the paste
    as the implementation left it. *)

Module http.

Class PasteService (S E : Type) := {
  Paste : S -> Z -> option api.Paste * option E * S;
  Create : S -> api.Paste -> api.Paste * option E * S;
  Delete : S -> Z -> option E * S
}.

Definition StatusOK : Z := 200.
Definition StatusCreated : Z := 201.
Definition StatusBadRequest : Z := 400.
Definition StatusNotFound : Z := 404.
Definition StatusUnsupportedMediaType : Z := 415.

Inductive Arg := ArgInt (n : Z) | ArgString (s : string).

(** What a handler writes: [c.String] with a plain or a formatted
    message, [c.JSON] (of a possibly nil paste), or nothing. *)
Inductive Content :=
| Text (msg : string)
| Textf (format : string) (args : list Arg)
| JSON (p : option api.Paste)
| Empty.

Record Response := {
  Status : Z;
  Location : option string;
  Written : Content
}.

Definition respond (status : Z) (c : Content) : Response :=
  {| Status := status; Location := None; Written := c |}.

(** A handler returns, or panics after having written a response. *)
Inductive outcome :=
| Replied (r : Response)
| Panicked (r : Response).

(** The error of [json.Decoder.Decode], as [handleCreate] tells them
    apart. *)
Inductive DecodeError :=
| SyntaxError (Offset : Z)
| ErrUnexpectedEOF
| UnmarshalTypeError (Field : string) (Offset : Z)
| UnknownField (fieldName : string)
| EOF
| BodyTooLarge
| OtherError (msg : string).

(** A request: the [:id] path parameter, the Content-Type header, and
    the body as the strict decoder reads it: the first [Decode] into an
    [api.Paste], and whether the second [Decode] returns [io.EOF]. *)
Record Request := {
  param_id : string;
  ContentType : string;
  decoded : DecodeError + api.Paste;
  rest_is_EOF : bool
}.

Section Handlers.

Context {S E : Type} `{svc : PasteService S E}.

(** [base62.Decode] and [api.Paste.URL] are declared in packages that
    are not part of the sources at hand. *)
Variable base62_Decode : string -> option Z.
Variable URL : api.Paste -> string.

Definition notFound : Response :=
  respond StatusNotFound (Text "paste not found").

(** [handlePaste] *)
Definition handlePaste (h : S) (req : Request) : outcome * S :=
  match base62_Decode (param_id req) with
  | None => (Replied notFound, h)
  | Some id =>
      match Paste h id with
      | (_, Some err, h) => (Replied notFound, h)
      | (None, None, h) =>
          (* c.JSON writes null, then p.DeleteAfterRead dereferences nil *)
          (Panicked (respond StatusOK (JSON None)), h)
      | (Some p, None, h) =>
          let r := respond StatusOK (JSON (Some p)) in
          if api.DeleteAfterRead p
          then (Replied r, snd (Delete h (api.ID p)))
          else (Replied r, h)
      end
  end.

Definition decodeFailure (err : DecodeError) : Response :=
  match err with
  | SyntaxError off =>
      respond StatusBadRequest
        (Textf "Request body contains malformed JSON (at position %d)"
           [ArgInt off])
  | ErrUnexpectedEOF =>
      respond StatusBadRequest
        (Text "Request body contains badly-formed JSON")
  | UnmarshalTypeError field off =>
      respond StatusBadRequest
        (Textf "Request body contains an invalid value for the %q field (at position %d)"
           [ArgString field; ArgInt off])
  | UnknownField fieldName =>
      respond StatusBadRequest
        (Textf "Request body contains unknown field %s"
           [ArgString fieldName])
  | EOF =>
      respond StatusBadRequest (Text "Request body must not be empty")
  | BodyTooLarge =>
      respond StatusBadRequest
        (Text "Request body must not be larger than 10KB")
  | OtherError _ =>
      respond StatusBadRequest (Text "Internal Server Error")
  end.

(** Lines 203-211 of [handleCreate]: the paste built from the decoded
    body [data], the id drawn and the reading of the clock. *)
Definition newPaste (data : api.Paste) (id : Z) (now : time.Time)
  : api.Paste :=
  {| api.ID := id;
     api.Title := api.Title data;
     api.Body := api.Body data;
     api.Expires := time.zero;
     api.DeleteAfterRead := api.DeleteAfterRead data;
     api.Privacy := api.Privacy api.emptyPaste;
     api.Password := api.Password api.emptyPaste;
     api.Created := now;
     api.Syntax := api.Syntax data;
     api.UserID := api.UserID api.emptyPaste;
     api.User_ := api.User_ api.emptyPaste |}.

(** Lines 212-218 of [handleCreate]: the reply to what the service's
    [Create] returned. *)
Definition created (r : api.Paste * option E * S) : outcome * S :=
  match r with
  | (_, Some err, h) =>
      (Replied (respond StatusBadRequest
         (Text "failed to create paste")), h)
  | (p, None, h) =>
      (Replied {| Status := StatusCreated;
                  Location := Some (URL p);
                  Written := JSON (Some p) |}, h)
  end.

(** [handleCreate]: [seed_now] and [now] are the two readings of
    [time.Now()], the first for the seed and the second for [Created]. *)
Definition handleCreate (h : S) (rng : rand.Rand)
    (seed_now now : time.Time) (req : Request)
  : outcome * S * rand.Rand :=
  if negb (String.eqb (ContentType req) "")
     && negb (String.eqb (ContentType req) "application/json")
  then
    (Replied (respond StatusUnsupportedMediaType
       (Text "wrong Content-Type header, expect application/json")),
     h, rng)
  else
    match decoded req with
    | inl err => (Replied (decodeFailure err), h, rng)
    | inr data =>
        if negb (rest_is_EOF req) then
          (Replied (respond StatusBadRequest
             (Text "Request body must only contain a single JSON object")),
           h, rng)
        else
          let rng := rand.Seed rng (time.UnixNano seed_now) in
          let '(id, rng) := rand.Uint64 rng in
          let p := newPaste data id now in
          (created (Create h p), rng)
    end.

(** [handleDelete]: on success nothing is written, which gin sends as
    200 with an empty body. *)
Definition handleDelete (h : S) (req : Request) : outcome * S :=
  match base62_Decode (param_id req) with
  | None => (Replied notFound, h)
  | Some id =>
      match Delete h id with
      | (Some err, h) => (Replied notFound, h)
      | (None, h) => (Replied (respond StatusOK Empty), h)
      end
  end.

End Handlers.

End http.

(** ** Package auth: the MockStore of the tests

    [auth_test.go] keeps users in a Go map from id to user.  [Find] ranges
    over the map, whose iteration order Go leaves unspecified: the order is
    an argument of the loop, and [iteration] says which orders are
    possible. *)

Module auth.

Record MockStore := { users : gmap Z api.User }.

(** [Store]: [s.users[usr.ID] = &usr]; the error is always nil. *)
Definition Store (s : MockStore) (usr : api.User) : MockStore :=
  {| users := <[api.UserID_ usr := usr]> (users s) |}.

(** The three tests of the loop body of [Find] on a stored user [u]. *)
Definition matches (usr u : api.User) : bool :=
  (negb (String.eqb (api.Username usr) "")
   && String.eqb (api.Username u) (api.Username usr))
  || (negb (String.eqb (api.Email usr) "")
      && String.eqb (api.Email u) (api.Email usr))
  || (negb (api.UserID_ usr =? 0) && (api.UserID_ u =? api.UserID_ usr)).

(** [Find]: the first user of the iteration that passes a test, or Go's
    [(nil, nil)]. *)
Definition Find (order : list api.User) (usr : api.User) : option api.User :=
  List.find (matches usr) order.

(** The orders in which a [range] over the map may visit the users. *)
Definition iteration (s : MockStore) (order : list api.User) : Prop :=
  order ≡ₚ (map_to_list (users s)).*2.

(** A store as [Store] builds it: every user sits under its own id. *)
Definition keyed (s : MockStore) : Prop :=
  map_Forall (λ k u, api.UserID_ u = k) (users s).

End auth.

(** ** The vocabulary of the specification *)

Module spec.

(** [[0-9]] *)
Definition is_digit (c : ascii) : bool :=
  (48 <=? byte_val c) && (byte_val c <=? 57).

Fixpoint every_digit (s : string) : bool :=
  match s with
  | EmptyString => true
  | String c r => is_digit c && every_digit r
  end.

(** [[0-9]+] *)
Definition is_magnitude (s : string) : bool :=
  negb (String.eqb s "") && every_digit s.

(** The number a decimal magnitude denotes, most significant digit first. *)
Fixpoint value_from (acc : Z) (s : string) : Z :=
  match s with
  | EmptyString => acc
  | String c r => value_from (acc * 10 + (byte_val c - 48)) r
  end.

Definition value (s : string) : Z := value_from 0 s.

(** [[mhdwMy]] *)
Definition is_unit (c : ascii) : bool :=
  existsb (Ascii.eqb c) ["m"; "h"; "d"; "w"; "M"; "y"]%char.

(** [^[0-9]+[mhdwMy]$] *)
Definition is_duration (expr : string) : bool :=
  match last_byte expr with
  | Some u => is_magnitude (init expr) && is_unit u
  | None => false
  end.

(** [[+-]?[0-9]+] *)
Definition is_signed_magnitude (s : string) : bool :=
  match s with
  | EmptyString => false
  | String c r =>
      if strconv.is_sign c then is_magnitude r else is_magnitude s
  end.

(** [^[+-]?[0-9]+[mhdwMy]$] *)
Definition is_signed_duration (expr : string) : bool :=
  match last_byte expr with
  | Some u => is_signed_magnitude (init expr) && is_unit u
  | None => false
  end.

(** The never-sentinel is the zero instant. *)
Definition never (t : time.Time) : bool := time.IsZero t.

(** A paste has expired at [now]: it has an expiration instant, and the
    instant has passed. *)
Definition expired (p : api.Paste) (now : time.Time) : bool :=
  negb (never (api.Expires p)) && time.Before (api.Expires p) now.

(** The instants the theorems on expiration range over: a well-formed
    nanosecond field, and a date from year 1 to year 9999. *)
Definition instant (t : time.Time) : Prop :=
  0 <= time.nsec t < 1000000000 /\ 0 <= time.sec t < 315537897600.

(** The largest magnitude of each unit the theorems on expiration cover:
    for minutes and hours the largest whose duration fits an int64 count
    of nanoseconds. *)
Definition max_magnitude (u : ascii) : Z :=
  if (u =? "m")%char then 153722867
  else if (u =? "h")%char then 2562047
  else 1000000000.

(** Ids of 63 and of 64 bits. *)
Definition is_int63 (id : Z) : Prop := 0 <= id < 2 ^ 63.
Definition is_uint64 (id : Z) : Prop := 0 <= id < 2 ^ 64.

End spec.

(** ** Calendar quantities used in the proofs *)

Module calendar.

(** The length of February beyond 28 days. *)
Definition leapDay (year : Z) : Z := if time.isLeap year then 1 else 0.

(** Days from January 1, year 1 to the first day of the month with index
    [M], counting months from January of year 1 as month 0. *)
Definition monthStart (M : Z) : Z :=
  let year := 1 + M / 12 in
  let m := M mod 12 in
  time.daysSinceEpoch year + time.daysBefore m
  + (if time.isLeap year && (3 <=? m + 1) then 1 else 0).

(** [time.monthDay] gives a month and a day that add up to the day of the
    year. *)
Definition monthDay_ok (year yday : Z) : bool :=
  let '(m, d) := time.monthDay year yday in
  (1 <=? m) && (m <=? 12) && (1 <=? d) && (d <=? 31)
  && (time.daysBefore (m - 1)
      + (if time.isLeap year && (3 <=? m) then 1 else 0) + (d - 1) =? yday).

(** [time.monthDay] gives a day that the month has: the day is at most
    the distance from the start of the month to the start of the next. *)
Definition monthDay_fits (year yday : Z) : bool :=
  let '(m, d) := time.monthDay year yday in
  time.daysBefore (m - 1) + (if time.isLeap year && (3 <=? m) then 1 else 0)
  + d
  <=? time.daysBefore m + (if time.isLeap year && (2 <=? m) then 1 else 0).

(** The month index of an instant, and its day of the month. *)
Definition monthIndex (t : time.Time) : Z :=
  let '(year, month, _) := time.date t in 12 * (year - 1) + (month - 1).

Definition dayOfMonth (t : time.Time) : Z :=
  let '(_, _, day) := time.date t in day.

End calendar.

(** ** Fixtures for the examples *)

Module fixture.

(** A generator that counts up from its seed. *)
Definition counter : rand.Rand :=
  {| rand.algorithm := fun seed i => seed + Z.of_nat i;
     rand.seed := 0; rand.drawn := 0 |}.

(** A generator whose outputs have the top bit set. *)
Definition high : rand.Rand :=
  {| rand.algorithm := fun seed i => 2 ^ 63 + Z.of_nat i;
     rand.seed := 0; rand.drawn := 0 |}.

(** A salted hash that never fails. *)
Definition hash (salt password : string) (cost : Z)
  : bcrypt.error + string :=
  inr ("$2a$" ++ salt ++ "$" ++ password)%string.

(** 2021-07-01 12:30:45.000000005 UTC *)
Definition noon : time.Time :=
  {| time.sec := 1625142645 + time.unixToInternal; time.nsec := 5 |}.

(** 2021-06-01 00:00:00 UTC, a month before [noon]. *)
Definition june : time.Time := time.Date 2021 6 1 0 0 0 0.

Definition form (title body expires password : string)
  : api.Form.PasteForm :=
  {| api.Form.Title := title; api.Form.Body := body;
     api.Form.Expires := expires; api.Form.DeleteAfterRead := false;
     api.Form.Privacy := "public"; api.Form.Password := password;
     api.Form.Syntax := "text"; api.Form.UserID := 0 |}.

(** A paste created in May 2021 that expired on [june], protected by a
    password. *)
Definition stale : api.Paste :=
  {| api.ID := 7; api.Title := "t"; api.Body := "b";
     api.Expires := june;
     api.DeleteAfterRead := false; api.Privacy := "public";
     api.Password := "$2a$10$hash";
     api.Created := time.Date 2021 5 1 0 0 0 0; api.Syntax := "text";
     api.UserID := 0; api.User_ := api.noUser |}.

Definition emptyDB : gorm.DB :=
  {| gorm.pastes := ∅; gorm.users := ∅;
     gorm.foreign_keys := true; gorm.outage := None |}.

(** A store that holds [stale] under the id 7. *)
Definition staleDB : gorm.DB :=
  gorm.with_pastes emptyDB
    {[ 7 := {| gorm.columns := stale; gorm.user_id := None |} ]}.

Definition service (d : gorm.DB) : sqldb.PasteService :=
  {| sqldb.db := Some d;
     sqldb.Options :=
       {| sqldb.DBConnection := Some d; sqldb.DBAutoMigrate := false |} |}.

(** An implementation of the interface of [http.go] over a map, in the
    manner of the [MockStore] of [auth_test.go]: [Paste] fails on an
    unknown id, [Create] stores the paste it is given. *)
#[global] Instance memory : http.PasteService (gmap Z api.Paste) string :=
  {| http.Paste := fun m id =>
       match m !! id with
       | Some p => (Some p, None, m)
       | None => (None, Some "paste not found", m)
       end;
     http.Create := fun m p => (p, None, <[api.ID p := p]> m);
     http.Delete := fun m id =>
       match m !! id with
       | Some _ => (None, delete id m)
       | None => (Some "paste not found", m)
       end |}.

(** A service started by [sqldb.New] with migration, over an empty
    store. *)
Definition migrated : sqldb.PasteService :=
  {| sqldb.db := Some emptyDB;
     sqldb.Options :=
       {| sqldb.DBConnection := Some emptyDB;
          sqldb.DBAutoMigrate := true |} |}.

(** The pastes two services seeded at [june] create first. *)
Definition first1 : api.Paste :=
  {| api.ID := 1622505600000000000; api.Title := "t"; api.Body := "b";
     api.Expires := time.zero; api.DeleteAfterRead := false;
     api.Privacy := "public"; api.Password := "";
     api.Created := noon; api.Syntax := "text";
     api.UserID := 0; api.User_ := api.noUser |}.

Definition first2 : api.Paste :=
  {| api.ID := 1622505600000000000; api.Title := "u"; api.Body := "c";
     api.Expires := time.AddDate june 0 0 1;
     api.DeleteAfterRead := false; api.Privacy := "public";
     api.Password := "$2a$pepper$pw";
     api.Created := june; api.Syntax := "text";
     api.UserID := 0; api.User_ := api.noUser |}.

(** The generator [counter] seeded with 9: it draws 9, 10, 11, ... *)
Definition nine : rand.Rand := rand.Seed counter 9.

(** The paste created at [noon] from a form that expires in an hour, with
    the password [pw], when the generator draws 9. *)
Definition hourly : api.Paste :=
  {| api.ID := 9; api.Title := "t"; api.Body := "b";
     api.Expires := time.Date 2021 7 1 13 30 45 5;
     api.DeleteAfterRead := false; api.Privacy := "public";
     api.Password := "$2a$salt$pw";
     api.Created := noon; api.Syntax := "text";
     api.UserID := 0; api.User_ := api.noUser |}.

(** A user, and a store that knows her and holds [stale]. *)
Definition alice : api.User :=
  {| api.UserID_ := 5; api.Username := "alice";
     api.Email := "alice@example.com" |}.

Definition aliceDB : gorm.DB :=
  {| gorm.pastes := gorm.pastes staleDB; gorm.users := {[ 5 := alice ]};
     gorm.foreign_keys := true; gorm.outage := None |}.

(** A private paste of [alice] that burns after a read. *)
Definition aliceForm : api.Form.PasteForm :=
  {| api.Form.Title := "mine"; api.Form.Body := "b";
     api.Form.Expires := "never"; api.Form.DeleteAfterRead := true;
     api.Form.Privacy := "private"; api.Form.Password := "";
     api.Form.Syntax := "go"; api.Form.UserID := 5 |}.

(** The paste [Create] returns for [aliceForm] at [noon] when the
    generator draws 9. *)
Definition mine : api.Paste :=
  {| api.ID := 9; api.Title := "mine"; api.Body := "b";
     api.Expires := time.zero; api.DeleteAfterRead := true;
     api.Privacy := "private"; api.Password := "";
     api.Created := noon; api.Syntax := "go";
     api.UserID := 5; api.User_ := api.noUser |}.

(** A paste that burns after a read, and a service of [http.go] that
    holds it. *)
Definition flash : api.Paste :=
  {| api.ID := 7; api.Title := "once"; api.Body := "b";
     api.Expires := time.zero; api.DeleteAfterRead := true;
     api.Privacy := ""; api.Password := "";
     api.Created := noon; api.Syntax := "text";
     api.UserID := 0; api.User_ := api.noUser |}.

Definition burning : gmap Z api.Paste := {[ 7 := flash ]}.

(** Two users of a [MockStore], and a query by id. *)
Definition bob : api.User :=
  {| api.UserID_ := 6; api.Username := "bob";
     api.Email := "bob@example.com" |}.

Definition mock : auth.MockStore :=
  {| auth.users := {[ 5 := alice; 6 := bob ]} |}.

Definition byID (id : Z) : api.User :=
  {| api.UserID_ := id; api.Username := ""; api.Email := "" |}.

(** An implementation of the interface of [http.go] that refuses an id
    that is taken; it is handed to the handlers explicitly. *)
Definition strict : http.PasteService (gmap Z api.Paste) string :=
  {| http.Paste := fun m id =>
       match m !! id with
       | Some p => (Some p, None, m)
       | None => (None, Some "paste not found", m)
       end;
     http.Create := fun m p =>
       match m !! api.ID p with
       | Some _ => (p, Some "id taken", m)
       | None => (p, None, <[api.ID p := p]> m)
       end;
     http.Delete := fun m id =>
       match m !! id with
       | Some _ => (None, delete id m)
       | None => (Some "paste not found", m)
       end |}.

(** The paste [handleCreate] builds from the body [stale] when the clock
    reads [june] for the seed and [noon] for the creation. *)
Definition posted : api.Paste :=
  {| api.ID := 1622505600000000000; api.Title := "t"; api.Body := "b";
     api.Expires := time.zero; api.DeleteAfterRead := false;
     api.Privacy := ""; api.Password := "";
     api.Created := noon; api.Syntax := "text";
     api.UserID := 0; api.User_ := api.noUser |}.

(** A store whose connection is failing. *)
Definition downDB : gorm.DB :=
  {| gorm.pastes := gorm.pastes staleDB; gorm.users := ∅;
     gorm.foreign_keys := true; gorm.outage := Some "connection refused" |}.

Definition decode (s : string) : option Z :=
  if String.eqb s "7" then Some 7 else None.

Definition url (p : api.Paste) : string := "/p/".

Definition request (id : string) (data : api.Paste) : http.Request :=
  {| http.param_id := id; http.ContentType := "application/json";
     http.decoded := inr data; http.rest_is_EOF := true |}.

End fixture.
(** ** Tactics *)

(** Evaluates the calendar tables at the literals of the goal. *)
Ltac eval_calendar :=
  repeat match goal with
  | |- context [time.daysBefore ?k] =>
      let v := eval vm_compute in (time.daysBefore k) in
      progress change (time.daysBefore k) with v
  | |- context [3 <=? ?k] =>
      let v := eval vm_compute in (3 <=? k) in
      progress change (3 <=? k) with v
  end; cbn [andb].


(** * Examples *)

(** [strconv.Atoi] on decimal, signed, extreme and malformed inputs. *)
Example Atoi_values :
  strconv.Atoi "15" = (15, None)
  /\ strconv.Atoi "-15" = (-15, None)
  /\ strconv.Atoi "+15" = (15, None)
  /\ strconv.Atoi "0000000000000000000015" = (15, None)
  /\ strconv.Atoi "9223372036854775807" = (9223372036854775807, None)
  /\ strconv.Atoi "-9223372036854775808" = (-9223372036854775808, None).
Proof. repeat split; reflexivity. Qed.

Example Atoi_errors :
  strconv.Err <$> snd (strconv.Atoi "1x") = Some strconv.ErrSyntax
  /\ strconv.Err <$> snd (strconv.Atoi "") = Some strconv.ErrSyntax
  /\ strconv.Err <$> snd (strconv.Atoi "+") = Some strconv.ErrSyntax
  /\ strconv.Atoi "9223372036854775808"
     = (9223372036854775807,
        Some {| strconv.Func := "Atoi"; strconv.Num := "9223372036854775808";
                strconv.Err := strconv.ErrRange |})
  /\ strconv.Err <$> snd (strconv.Atoi "99999999999999999999999999x")
     = Some strconv.ErrRange.
Proof. repeat split; reflexivity. Qed.

(** 2021-07-01 12:30:45 UTC is 1625142645 in Unix time. *)
Example noon_fields :
  time.date fixture.noon = (2021, 7, 1)
  /\ time.clock fixture.noon = (12, 30, 45)
  /\ time.Date 2021 7 1 12 30 45 5 = fixture.noon
  /\ time.UnixNano fixture.noon = 1625142645000000005.
Proof. repeat split; reflexivity. Qed.

(** Calendar arithmetic: January 31 plus one month is March 3 in 2021, and
    leap days are where they belong. *)
Example calendar_dates :
  time.date (time.AddDate (time.Date 2021 1 31 0 0 0 0) 0 1 0) = (2021, 3, 3)
  /\ time.date (time.Date 2024 2 29 0 0 0 0) = (2024, 2, 29)
  /\ time.date (time.Date 2024 12 31 0 0 0 0) = (2024, 12, 31)
  /\ time.date (time.Date 2000 12 31 0 0 0 0) = (2000, 12, 31)
  /\ time.date (time.Date 1900 2 29 0 0 0 0) = (1900, 3, 1)
  /\ time.date time.zero = (1, 1, 1).
Proof. repeat split; reflexivity. Qed.

(** The expiration of a form submitted at [fixture.noon]. *)
Example expiration_values :
  sqldb.expiration "never" fixture.noon = inr time.zero
  /\ sqldb.expiration "" fixture.noon = inr time.zero
  /\ sqldb.expiration "90m" fixture.noon
     = inr (time.Date 2021 7 1 14 0 45 5)
  /\ sqldb.expiration "2w" fixture.noon
     = inr (time.Date 2021 7 15 12 30 45 5)
  /\ sqldb.expiration "8M" fixture.noon
     = inr (time.Date 2022 3 1 12 30 45 5)
  /\ sqldb.expiration "1y" fixture.noon
     = inr (time.Date 2022 7 1 12 30 45 5)
  /\ sqldb.expiration "10x" fixture.noon = inl (UnknownDurationFormat "10x").
Proof. repeat split; reflexivity. Qed.

(** * Properties *)

(** ** Strings and numbers *)

Lemma byte_val_range (c : ascii) : 0 <= byte_val c < 256.
Proof.
  unfold byte_val. pose proof (N_ascii_bounded c). lia.
Qed.

Lemma digit_Some (c : ascii) (d : Z) :
  strconv.digit c = Some d <-> spec.is_digit c = true /\ d = byte_val c - 48.
Proof.
  unfold strconv.digit, spec.is_digit.
  pose proof (byte_val_range c) as Hc.
  rewrite andb_true_iff, !Z.leb_le.
  destruct (9 <? (byte_val c - 48) mod 256) eqn:H9;
    [apply Z.ltb_lt in H9 | apply Z.ltb_ge in H9]; split.
  - discriminate.
  - intros [[Hl Hu] _]. rewrite Z.mod_small in H9 by lia. lia.
  - intros [= <-]. revert H9. Z.div_mod_to_equations. lia.
  - intros [[Hl Hu] ->]. rewrite Z.mod_small by lia. done.
Qed.

Lemma fast_loop_Some (s : string) (n v : Z) :
  strconv.fast_loop s n = Some v ->
  spec.every_digit s = true /\ v = spec.value_from n s.
Proof.
  revert n. induction s as [|c r IH]; intros n; simpl.
  - intros [= <-]. done.
  - destruct (strconv.digit c) as [d|] eqn:Hd; [|discriminate].
    apply digit_Some in Hd as [Hc ->]. rewrite Hc. simpl. apply IH.
Qed.

Lemma fast_loop_value (s : string) (n : Z) :
  spec.every_digit s = true ->
  strconv.fast_loop s n = Some (spec.value_from n s).
Proof.
  revert n. induction s as [|c r IH]; intros n; simpl; [done|].
  intros H. apply andb_true_iff in H as [Hc Hr].
  assert (strconv.digit c = Some (byte_val c - 48)) as ->
    by (apply digit_Some; done).
  apply IH, Hr.
Qed.

Lemma is_digit_range (c : ascii) :
  spec.is_digit c = true -> 0 <= byte_val c - 48 <= 9.
Proof.
  unfold spec.is_digit. rewrite andb_true_iff, !Z.leb_le. lia.
Qed.

Lemma value_from_ge (s : string) (n : Z) :
  spec.every_digit s = true -> 0 <= n -> n <= spec.value_from n s.
Proof.
  revert n. induction s as [|c r IH]; intros n; simpl; [lia|].
  intros H Hn. apply andb_true_iff in H as [Hc Hr].
  apply is_digit_range in Hc.
  specialize (IH (n * 10 + (byte_val c - 48)) Hr). lia.
Qed.

Lemma ParseUint_loop_None (s : string) (n v : Z) :
  strconv.ParseUint_loop s n = (v, None) -> spec.every_digit s = true.
Proof.
  revert n. induction s as [|c r IH]; intros n; simpl; [done|].
  destruct (strconv.digit c) as [d|] eqn:Hd; [|discriminate].
  apply digit_Some in Hd as [Hc ->]. rewrite Hc. simpl.
  destruct (strconv.cutoff10 <=? n); [discriminate|].
  destruct (_ <? _); [discriminate|]. apply IH.
Qed.

Lemma ParseUint_loop_value (s : string) (n : Z) :
  spec.every_digit s = true -> 0 <= n ->
  spec.value_from n s < 2 ^ 64 ->
  strconv.ParseUint_loop s n = (spec.value_from n s, None).
Proof.
  revert n. induction s as [|c r IH]; intros n; simpl; [done|].
  intros H Hn Hv. apply andb_true_iff in H as [Hc Hr].
  assert (strconv.digit c = Some (byte_val c - 48)) as ->
    by (apply digit_Some; done).
  apply is_digit_range in Hc.
  pose proof (value_from_ge r (n * 10 + (byte_val c - 48)) Hr) as Hge.
  assert (strconv.cutoff10 = 1844674407370955162) as Hcut by reflexivity.
  destruct (strconv.cutoff10 <=? n) eqn:Hcmp.
  { apply Z.leb_le in Hcmp. lia. }
  unfold wrapU64. rewrite Z.mod_small by lia.
  destruct (_ <? _) eqn:Hw.
  { apply Z.ltb_lt in Hw. lia. }
  apply IH; [done|lia|done].
Qed.

Lemma len_String (c : ascii) (s : string) : len (String c s) = len s + 1.
Proof. unfold len. simpl. lia. Qed.

Lemma len_nonneg (s : string) : 0 <= len s.
Proof. unfold len. lia. Qed.

Lemma is_magnitude_String (c : ascii) (r : string) :
  spec.is_magnitude (String c r) = spec.every_digit (String c r).
Proof. reflexivity. Qed.

Lemma is_magnitude_not_sign (c : ascii) (r : string) :
  spec.is_magnitude (String c r) = true -> strconv.is_sign c = false.
Proof.
  rewrite is_magnitude_String. simpl. intros H.
  apply andb_true_iff in H as [Hc _]. apply is_digit_range in Hc.
  unfold strconv.is_sign. apply orb_false_iff. split; apply Z.eqb_neq; lia.
Qed.

Lemma ParseUint_loop_range (s : string) (n un : Z) :
  strconv.ParseUint_loop s n = (un, Some strconv.ErrRange) ->
  un = strconv.maxUint64.
Proof.
  revert n. induction s as [|c r IH]; intros n; simpl; [discriminate|].
  destruct (strconv.digit c); [|discriminate].
  destruct (_ <=? _); [intros [= <-]; done|].
  destruct (_ <? _); [intros [= <-]; done|]. apply IH.
Qed.

Lemma ParseUint_None (s : string) (un : Z) :
  strconv.ParseUint s = (un, None) -> spec.is_magnitude s = true.
Proof.
  destruct s as [|c r]; [discriminate|]. unfold strconv.ParseUint.
  intros H. apply ParseUint_loop_None in H. exact H.
Qed.

Lemma ParseUint_range (s : string) (un : Z) :
  strconv.ParseUint s = (un, Some strconv.ErrRange) ->
  un = strconv.maxUint64.
Proof.
  destruct s as [|c r]; [discriminate|]. unfold strconv.ParseUint.
  apply ParseUint_loop_range.
Qed.

Lemma ParseInt_accepts (s : string) (i : Z) :
  strconv.ParseInt s = (i, None) -> spec.is_signed_magnitude s = true.
Proof.
  destruct s as [|c r]; [discriminate|].
  unfold strconv.ParseInt, spec.is_signed_magnitude.
  set (s := if strconv.is_sign c then r else String c r).
  destruct (strconv.ParseUint s) as [un [[]|]] eqn:Hu.
  - discriminate.
  - apply ParseUint_range in Hu as ->.
    destruct (strconv.is_minus c); simpl; discriminate.
  - intros _. apply ParseUint_None in Hu. subst s.
    destruct (strconv.is_sign c); exact Hu.
Qed.

(** [strconv.Atoi] accepts nothing but an optionally signed run of digits. *)
Lemma Atoi_accepts (s : string) (n : Z) :
  strconv.Atoi s = (n, None) -> spec.is_signed_magnitude s = true.
Proof.
  unfold strconv.Atoi.
  destruct ((0 <? len s) && (len s <? 19)) eqn:Hfast.
  - destruct s as [|c r]; [discriminate|].
    unfold spec.is_signed_magnitude.
    set (s := if strconv.is_sign c then r else String c r).
    destruct (strconv.is_sign c && (len s <? 1)) eqn:Hlen; [discriminate|].
    destruct (strconv.fast_loop s 0) as [v|] eqn:Hloop; [|discriminate].
    intros _. apply fast_loop_Some in Hloop as [Hd _].
    assert (spec.is_magnitude s = true) as Hm.
    { unfold spec.is_magnitude. rewrite Hd. subst s.
      destruct (strconv.is_sign c); [|reflexivity].
      destruct r; [discriminate|reflexivity]. }
    subst s. destruct (strconv.is_sign c); exact Hm.
  - destruct (strconv.ParseInt s) as [i64 [cause|]] eqn:Hp; [discriminate|].
    intros _. apply ParseInt_accepts in Hp. exact Hp.
Qed.

(** [strconv.Atoi] reads a magnitude that fits an int64 as its value. *)
Lemma Atoi_magnitude (s : string) :
  spec.is_magnitude s = true -> spec.value s <= maxInt64 ->
  strconv.Atoi s = (spec.value s, None).
Proof.
  intros Hm Hv. destruct s as [|c r]; [discriminate|].
  pose proof (is_magnitude_not_sign c r Hm) as Hsign.
  assert (strconv.is_minus c = false) as Hminus.
  { unfold strconv.is_sign in Hsign.
    apply orb_false_iff in Hsign as [_ Hs]. exact Hs. }
  rewrite is_magnitude_String in Hm.
  pose proof (value_from_ge (String c r) 0 Hm) as Hge.
  unfold maxInt64 in Hv. fold (spec.value (String c r)) in Hge.
  unfold strconv.Atoi.
  destruct ((0 <? len (String c r)) && (len (String c r) <? 19)).
  - rewrite Hsign, Hminus. cbn [andb].
    rewrite (fast_loop_value _ 0 Hm). reflexivity.
  - unfold strconv.ParseInt. rewrite Hsign, Hminus.
    unfold strconv.ParseUint.
    rewrite (ParseUint_loop_value _ 0 Hm) by (fold (spec.value (String c r)); lia).
    fold (spec.value (String c r)).
    assert ((2 ^ 63 <=? spec.value (String c r)) = false) as ->
      by (apply Z.leb_gt; lia).
    simpl. unfold wrap64. rewrite Z.mod_small by lia.
    f_equal. lia.
Qed.

(** ** The calendar *)

Lemma isLeap_spec (y : Z) :
  time.isLeap y = true <-> (y mod 4 = 0 /\ (y mod 100 <> 0 \/ y mod 400 = 0)).
Proof.
  unfold time.isLeap.
  rewrite andb_true_iff, orb_true_iff, negb_true_iff, !Z.eqb_eq, Z.eqb_neq.
  Z.to_euclidean_division_equations. lia.
Qed.

Lemma daysSinceEpoch_succ (y : Z) :
  time.daysSinceEpoch (y + 1) = time.daysSinceEpoch y + 365 + calendar.leapDay y.
Proof.
  unfold calendar.leapDay.
  destruct (time.isLeap y) eqn:HL.
  - apply isLeap_spec in HL. unfold time.daysSinceEpoch, time.daysPer400Years, time.daysPer100Years, time.daysPer4Years.
    cbv zeta. Z.to_euclidean_division_equations. lia.
  - assert (~ (y mod 4 = 0 /\ (y mod 100 <> 0 \/ y mod 400 = 0))) as HL'.
    { rewrite <- isLeap_spec. congruence. }
    unfold time.daysSinceEpoch, time.daysPer400Years, time.daysPer100Years, time.daysPer4Years.
    cbv zeta. Z.to_euclidean_division_equations. lia.
Qed.

Lemma absYearDay_spec (days : Z) :
  let '(y, yd) := time.absYearDay days in
  time.daysSinceEpoch y + yd = days /\ 0 <= yd < 365 + calendar.leapDay y.
Proof.
  unfold time.absYearDay, time.daysPer400Years, time.daysPer100Years, time.daysPer4Years.
  cbv zeta. rewrite !Z.shiftr_div_pow2 by lia. change (2 ^ 2) with 4.
  set (n400 := days / (365 * 400 + 97)).
  set (r400 := days - (365 * 400 + 97) * n400).
  set (q100 := r400 / (365 * 100 + 24)).
  set (n100 := q100 - q100 / 4).
  set (r100 := r400 - (365 * 100 + 24) * n100).
  set (n4 := r100 / (365 * 4 + 1)).
  set (r4 := r100 - (365 * 4 + 1) * n4).
  set (q1 := r4 / 365).
  set (n1 := q1 - q1 / 4).
  assert (0 <= r400 < 146097) as H400 by (subst r400 n400; Z.to_euclidean_division_equations; lia).
  assert (0 <= n100 <= 3 /\ 0 <= r100 <= 36524 /\ (r100 = 36524 -> n100 = 3)) as H100
    by (subst r100 n100 q100; Z.to_euclidean_division_equations; lia).
  assert (0 <= n4 <= 24 /\ 0 <= r4 <= 1460 /\ (n4 = 24 -> r4 = 1460 -> r100 = 36524)) as H4
    by (subst r4 n4; Z.to_euclidean_division_equations; lia).
  assert (0 <= n1 <= 3 /\ 0 <= r4 - 365 * n1 <= 365 /\ (r4 - 365 * n1 = 365 -> n1 = 3 /\ r4 = 1460)) as H1
    by (subst n1 q1; Z.to_euclidean_division_equations; lia).
  assert (days = 146097 * n400 + 36524 * n100 + 1461 * n4 + r4) as Hdays
    by (subst r4 r100 r400; lia).
  clearbody n400 r400 q100 n100 r100 n4 r4 q1 n1.
  set (y := 400 * n400 + 100 * n100 + 4 * n4 + n1 + 1).
  assert (time.daysSinceEpoch y = 146097 * n400 + 36524 * n100 + 1461 * n4 + 365 * n1) as HD.
  { unfold time.daysSinceEpoch, time.daysPer400Years, time.daysPer100Years, time.daysPer4Years.
    cbv zeta. subst y. Z.to_euclidean_division_equations. lia. }
  split.
  - fold y. rewrite HD. lia.
  - unfold calendar.leapDay. destruct (time.isLeap y) eqn:HL; [lia|].
    assert (~ (y mod 4 = 0 /\ (y mod 100 <> 0 \/ y mod 400 = 0))) as HL'.
    { rewrite <- isLeap_spec. congruence. }
    subst y. revert HL'. Z.to_euclidean_division_equations. lia.
Qed.

Lemma monthDay_leap (year yday : Z) :
  time.monthDay year yday
  = time.monthDay (if time.isLeap year then 4 else 1) yday.
Proof.
  unfold time.monthDay. destruct (time.isLeap year); reflexivity.
Qed.

Lemma monthDay_table :
  forallb (fun i => calendar.monthDay_ok 4 (Z.of_nat i)) (seq 0 366)
  && forallb (fun i => calendar.monthDay_ok 1 (Z.of_nat i)) (seq 0 365) = true.
Proof. vm_compute. reflexivity. Qed.

Lemma monthDay_spec (year yday : Z) :
  0 <= yday < 365 + calendar.leapDay year ->
  let '(m, d) := time.monthDay year yday in
  1 <= m <= 12 /\ 1 <= d <= 31 /\
  time.daysBefore (m - 1)
  + (if time.isLeap year && (3 <=? m) then 1 else 0) + (d - 1) = yday.
Proof.
  intros Hy.
  assert (calendar.monthDay_ok (if time.isLeap year then 4 else 1) yday = true) as Hok.
  { pose proof monthDay_table as Ht. apply andb_true_iff in Ht as [H4 H1].
    rewrite forallb_forall in H4, H1. unfold calendar.leapDay in Hy.
    rewrite <- (Z2Nat.id yday) by lia.
    destruct (time.isLeap year); [apply H4 | apply H1]; apply in_seq; lia. }
  unfold calendar.monthDay_ok in Hok. rewrite <- monthDay_leap in Hok.
  destruct (time.monthDay year yday) as [m d].
  replace (time.isLeap (if time.isLeap year then 4 else 1))
    with (time.isLeap year) in Hok by (destruct (time.isLeap year); reflexivity).
  rewrite !andb_true_iff, !Z.leb_le, Z.eqb_eq in Hok. lia.
Qed.

Lemma norm_id (hi lo base : Z) :
  0 <= lo < base -> time.norm hi lo base = (hi, lo).
Proof.
  intros H. unfold time.norm.
  destruct (lo <? 0) eqn:H0; [apply Z.ltb_lt in H0; lia|].
  destruct (base <=? lo) eqn:H1; [apply Z.leb_le in H1; lia|]. reflexivity.
Qed.

Lemma norm_12 (hi lo : Z) :
  0 <= lo -> time.norm hi lo 12 = (hi + lo / 12, lo mod 12).
Proof.
  intros H. unfold time.norm.
  destruct (lo <? 0) eqn:H0; [apply Z.ltb_lt in H0; lia|].
  destruct (12 <=? lo) eqn:H1;
    [apply Z.leb_le in H1 | apply Z.leb_gt in H1]; f_equal;
    Z.to_euclidean_division_equations; lia.
Qed.

(** [time.Date] on a month that may overflow and in-range clock fields. *)
Lemma Date_monthStart (year month day hour min s ns : Z) :
  1 <= month -> 0 <= hour < 24 -> 0 <= min < 60 -> 0 <= s < 60 ->
  0 <= ns < 1000000000 ->
  time.Date year month day hour min s ns
  = {| time.sec :=
         (calendar.monthStart (12 * (year - 1) + (month - 1)) + (day - 1)) * 86400
         + (hour * 3600 + min * 60 + s);
       time.nsec := ns |}.
Proof.
  intros Hm Hh Hmi Hs Hns. unfold time.Date.
  rewrite norm_12 by lia.
  rewrite (norm_id s ns) by lia. rewrite (norm_id min s) by lia.
  rewrite (norm_id hour min) by lia. rewrite (norm_id day hour) by lia.
  unfold calendar.monthStart, time.secondsPerDay. cbv zeta.
  replace (1 + (12 * (year - 1) + (month - 1)) / 12)
    with (year + (month - 1) / 12) by (Z.to_euclidean_division_equations; lia).
  replace ((12 * (year - 1) + (month - 1)) mod 12)
    with ((month - 1) mod 12) by (Z.to_euclidean_division_equations; lia).
  replace ((month - 1) mod 12 + 1 - 1) with ((month - 1) mod 12) by lia.
  destruct (_ && _); f_equal; lia.
Qed.

Lemma clock_spec (t : time.Time) :
  let '(hour, min, s) := time.clock t in
  0 <= hour < 24 /\ 0 <= min < 60 /\ 0 <= s < 60 /\
  hour * 3600 + min * 60 + s = time.sec t mod 86400.
Proof.
  unfold time.clock, time.secondsPerDay. cbv zeta.
  Z.to_euclidean_division_equations. lia.
Qed.

(** [t.Date()] and [t.Clock()] are the fields [time.Date] builds [t] from. *)
Lemma Date_date_clock (t : time.Time) :
  0 <= time.nsec t < 1000000000 ->
  let '(year, month, day) := time.date t in
  let '(hour, min, s) := time.clock t in
  1 <= month <= 12 /\ 1 <= day <= 31 /\
  0 <= hour < 24 /\ 0 <= min < 60 /\ 0 <= s < 60 /\
  time.sec t
  = (calendar.monthStart (12 * (year - 1) + (month - 1)) + (day - 1)) * 86400
    + (hour * 3600 + min * 60 + s).
Proof.
  intros Hns. unfold time.date.
  pose proof (absYearDay_spec (time.sec t / time.secondsPerDay)) as Hy.
  destruct (time.absYearDay _) as [year yday]. destruct Hy as [Hd Hyd].
  pose proof (monthDay_spec year yday Hyd) as Hm.
  destruct (time.monthDay year yday) as [month day].
  destruct Hm as (Hm & Hday & Hsum).
  pose proof (clock_spec t) as Hc.
  destruct (time.clock t) as [[hour min] s].
  destruct Hc as (Hh & Hmi & Hs & Hclock).
  repeat (split; [lia|]).
  unfold calendar.monthStart. cbv zeta.
  replace (1 + (12 * (year - 1) + (month - 1)) / 12) with year
    by (Z.to_euclidean_division_equations; lia).
  replace ((12 * (year - 1) + (month - 1)) mod 12) with (month - 1)
    by (Z.to_euclidean_division_equations; lia).
  replace (month - 1 + 1) with month by lia.
  rewrite Hclock. unfold time.secondsPerDay in Hd.
  revert Hd Hsum. generalize (time.daysSinceEpoch year).
  generalize (time.daysBefore (month - 1)).
  generalize (if time.isLeap year && (3 <=? month) then 1 else 0).
  intros. Z.to_euclidean_division_equations. lia.
Qed.

(** Every month has at least 28 days. *)
Lemma monthStart_succ (M : Z) : calendar.monthStart M + 28 <= calendar.monthStart (M + 1).
Proof.
  unfold calendar.monthStart. cbv zeta.
  set (q := M / 12). set (r := M mod 12).
  assert (M = 12 * q + r /\ 0 <= r < 12) as [HM Hr]
    by (subst q r; Z.to_euclidean_division_equations; lia).
  clearbody q r. subst M.
  destruct (Z.eq_dec r 11) as [->|Hne].
  - replace ((12 * q + 11 + 1) / 12) with (q + 1)
      by (Z.to_euclidean_division_equations; lia).
    replace ((12 * q + 11 + 1) mod 12) with 0
      by (Z.to_euclidean_division_equations; lia).
    replace (1 + (q + 1)) with (1 + q + 1) by lia.
    rewrite daysSinceEpoch_succ. unfold calendar.leapDay.
    destruct (time.isLeap (1 + q)), (time.isLeap (1 + q + 1));
      eval_calendar; lia.
  - replace ((12 * q + r + 1) / 12) with q
      by (Z.to_euclidean_division_equations; lia).
    replace ((12 * q + r + 1) mod 12) with (r + 1)
      by (Z.to_euclidean_division_equations; lia).
    assert (r = 0 \/ r = 1 \/ r = 2 \/ r = 3 \/ r = 4 \/ r = 5 \/ r = 6
            \/ r = 7 \/ r = 8 \/ r = 9 \/ r = 10) as Hcases by lia.
    destruct (time.isLeap (1 + q));
      repeat (destruct Hcases as [->|Hcases]); try subst r;
      eval_calendar; lia.
Qed.

Lemma monthStart_add (M k : Z) :
  0 <= k -> calendar.monthStart M + 28 * k <= calendar.monthStart (M + k).
Proof.
  intros Hk. pattern k. apply natlike_ind; [| |exact Hk].
  - replace (M + 0) with M by lia. lia.
  - intros j Hj IH. pose proof (monthStart_succ (M + j)).
    replace (M + Z.succ j) with (M + j + 1) by lia. lia.
Qed.

Lemma wrap64_small (z : Z) : - 2 ^ 63 <= z < 2 ^ 63 -> wrap64 z = z.
Proof.
  intros H. unfold wrap64. rewrite Z.mod_small by lia. lia.
Qed.

Lemma date_bounds (t : time.Time) :
  0 <= time.sec t < 315537897600 ->
  let '(year, month, day) := time.date t in
  1 <= year <= 10000 /\ 1 <= month <= 12 /\ 1 <= day <= 31.
Proof.
  intros Hs. unfold time.date.
  pose proof (absYearDay_spec (time.sec t / time.secondsPerDay)) as Hy.
  assert (0 <= time.sec t / time.secondsPerDay < 3652059) as Hdays
    by (unfold time.secondsPerDay; Z.to_euclidean_division_equations; lia).
  revert Hy Hdays. generalize (time.sec t / time.secondsPerDay). intros days.
  destruct (time.absYearDay days) as [year yday] eqn:Habs. intros [Hd Hyd] Hdays.
  pose proof (monthDay_spec year yday Hyd) as Hm.
  destruct (time.monthDay year yday) as [month day].
  split; [|lia].
  unfold time.absYearDay, time.daysPer400Years, time.daysPer100Years,
    time.daysPer4Years in Habs. cbv zeta in Habs.
  rewrite !Z.shiftr_div_pow2 in Habs by lia. change (2 ^ 2) with 4 in Habs.
  injection Habs as Hyear _. revert Hyear.
  Z.to_euclidean_division_equations. lia.
Qed.

(** What [t.AddDate] adds, for non-negative amounts that stay in range. *)
Lemma AddDate_sec (t : time.Time) (years months days : Z) :
  spec.instant t ->
  0 <= years <= 2 ^ 40 -> 0 <= months <= 2 ^ 40 -> 0 <= days <= 2 ^ 40 ->
  time.nsec (time.AddDate t years months days) = time.nsec t /\
  time.sec t + 86400 * (28 * (12 * years + months) + days)
    <= time.sec (time.AddDate t years months days).
Proof.
  intros [Hns Hsec] Hy Hm Hd. unfold time.AddDate.
  pose proof (date_bounds t Hsec) as Hb.
  pose proof (Date_date_clock t Hns) as Hr.
  destruct (time.date t) as [[year month] day].
  destruct (time.clock t) as [[hour min] s].
  destruct Hb as (Hyear & Hmonth & Hday).
  destruct Hr as (_ & _ & Hh & Hmi & Hs & Heq).
  rewrite !wrap64_small by lia.
  rewrite Date_monthStart by lia. cbn [time.sec time.nsec].
  split; [reflexivity|].
  pose proof (monthStart_add (12 * (year - 1) + (month - 1))
                (12 * years + months)) as Hmono.
  replace (12 * (year + years - 1) + (month + months - 1))
    with (12 * (year - 1) + (month - 1) + (12 * years + months)) by lia.
  lia.
Qed.

Lemma After_sec (t u : time.Time) :
  time.sec u < time.sec t -> time.After t u = true.
Proof.
  intros H. unfold time.After. apply orb_true_iff. left. apply Z.ltb_lt, H.
Qed.

(** Adding a positive duration gives a later instant. *)
Lemma Add_After (t : time.Time) (d : Z) :
  0 <= time.nsec t < 1000000000 -> 0 < d -> time.After (time.Add t d) t = true.
Proof.
  intros Hns Hd. unfold time.Add, time.After.
  destruct (1000000000 <=? _) eqn:H1; [|destruct (_ <? 0) eqn:H2];
    cbn [time.sec time.nsec];
    rewrite orb_true_iff, andb_true_iff, !Z.ltb_lt, Z.eqb_eq;
    rewrite ?Z.leb_le, ?Z.leb_gt, ?Z.ltb_lt, ?Z.ltb_ge in *;
    revert H1; try revert H2;
    Z.to_euclidean_division_equations; lia.
Qed.

(** ** Duration expressions *)

Lemma init_app (s : string) (u : ascii) : init (s ++ String u "") = s.
Proof.
  unfold init. induction s as [|c r IH]; [reflexivity|].
  simpl. simpl in IH. rewrite Nat.sub_0_r in *.
  destruct (String.length (r ++ String u "")) eqn:Hl.
  - destruct r; discriminate.
  - simpl in IH. rewrite Nat.sub_0_r in IH. rewrite IH. reflexivity.
Qed.

Lemma last_byte_app (s : string) (u : ascii) :
  last_byte (s ++ String u "") = Some u.
Proof.
  unfold last_byte. induction s as [|c r IH]; [reflexivity|].
  simpl. simpl in IH. rewrite Nat.sub_0_r in *.
  destruct (String.length (r ++ String u "")) eqn:Hl.
  - destruct r; discriminate.
  - simpl in IH. rewrite Nat.sub_0_r in IH. exact IH.
Qed.

Lemma len_app (s : string) (u : ascii) : len (s ++ String u "") = len s + 1.
Proof.
  unfold len. induction s as [|c r IH]; [reflexivity|].
  simpl String.length. lia.
Qed.

Lemma last_byte_Some (s : string) : s <> "" -> is_Some (last_byte s).
Proof.
  unfold last_byte. induction s as [|c r IH]; [done|]. intros _.
  simpl. rewrite Nat.sub_0_r. destruct r as [|c' r'].
  - simpl. eauto.
  - simpl String.length. simpl in IH. rewrite Nat.sub_0_r in IH.
    apply IH. done.
Qed.

Lemma is_unit_cases (u : ascii) :
  spec.is_unit u = true ->
  u = "m"%char \/ u = "h"%char \/ u = "d"%char \/ u = "w"%char
  \/ u = "M"%char \/ u = "y"%char.
Proof.
  unfold spec.is_unit. simpl. rewrite !orb_true_iff, !Ascii.eqb_eq.
  intuition discriminate.
Qed.

Lemma is_unit_false (u : ascii) :
  spec.is_unit u = false ->
  (u =? "m")%char = false /\ (u =? "h")%char = false
  /\ (u =? "d")%char = false /\ (u =? "w")%char = false
  /\ (u =? "M")%char = false /\ (u =? "y")%char = false.
Proof.
  unfold spec.is_unit. simpl. rewrite !orb_false_iff. intuition.
Qed.

Lemma duration_not_never (s : string) (u : ascii) :
  spec.is_magnitude s = true -> String.eqb (s ++ String u "") "never" = false.
Proof.
  intros H. destruct s as [|c r]; [discriminate|].
  rewrite is_magnitude_String in H. simpl in H.
  apply andb_true_iff in H as [Hc _]. apply is_digit_range in Hc.
  simpl. destruct (Ascii.eqb_spec c "n"); [|reflexivity].
  subst c. change (byte_val "n") with 110 in Hc. lia.
Qed.

(** ** The expiration of a form *)

(** The magnitude of a well-formed duration is read by [strconv.Atoi] and
    the unit selects the branch. *)
Lemma expiration_unfold (s : string) (u : ascii) (t : time.Time) :
  spec.is_magnitude s = true -> spec.value s <= maxInt64 ->
  sqldb.expiration (s ++ String u "") t =
  let dur := spec.value s in
  if (u =? "m")%char then
    inr (time.Add t (wrap64 (dur * time.Minute)))
  else if (u =? "h")%char then
    inr (time.Add t (wrap64 (dur * time.Hour)))
  else if (u =? "d")%char then
    inr (time.AddDate t 0 0 dur)
  else if (u =? "w")%char then
    inr (time.AddDate t 0 0 (wrap64 (dur * 7)))
  else if (u =? "M")%char then
    inr (time.AddDate t 0 dur 0)
  else if (u =? "y")%char then
    inr (time.AddDate t dur 0 0)
  else inl (UnknownDurationFormat (s ++ String u "")).
Proof.
  intros Hm Hv. unfold sqldb.expiration.
  rewrite duration_not_never by done.
  rewrite len_app, init_app, last_byte_app.
  assert ((1 <? len s + 1) = true) as ->.
  { apply Z.ltb_lt. destruct s; [discriminate|].
    rewrite len_String. pose proof (len_nonneg s). lia. }
  rewrite (Atoi_magnitude s Hm Hv). reflexivity.
Qed.

Lemma expiration_after (t : time.Time) (s : string) (u : ascii) :
  spec.instant t ->
  spec.is_magnitude s = true -> spec.is_unit u = true ->
  1 <= spec.value s <= spec.max_magnitude u ->
  exists e, sqldb.expiration (s ++ String u "") t = inr e
            /\ time.After e t = true.
Proof.
  intros Ht Hm Hu Hv.
  assert (spec.value s <= maxInt64) as Hmax.
  { unfold maxInt64. transitivity 1000000000; [|lia].
    destruct Hv as [_ Hv]. etransitivity; [exact Hv|].
    unfold spec.max_magnitude. repeat (destruct (_ =? _)%char); lia. }
  rewrite expiration_unfold by done. cbv zeta.
  pose proof Ht as [Hns Hsec].
  apply is_unit_cases in Hu as [ -> | [ -> | [ -> | [ -> | [ -> | -> ]]]]];
    cbn [Ascii.eqb Bool.eqb]; cbn [spec.max_magnitude Ascii.eqb Bool.eqb] in Hv;
    eexists; (split; [reflexivity|]).
  - unfold time.Minute, time.Second, time.Nanosecond.
    rewrite wrap64_small by lia. apply Add_After; lia.
  - unfold time.Hour, time.Minute, time.Second, time.Nanosecond.
    rewrite wrap64_small by lia. apply Add_After; lia.
  - destruct (AddDate_sec t 0 0 (spec.value s) Ht) as [_ H]; try lia.
    apply After_sec. lia.
  - rewrite wrap64_small by lia.
    destruct (AddDate_sec t 0 0 (spec.value s * 7) Ht) as [_ H]; try lia.
    apply After_sec. lia.
  - destruct (AddDate_sec t 0 (spec.value s) 0 Ht) as [_ H]; try lia.
    apply After_sec. lia.
  - destruct (AddDate_sec t (spec.value s) 0 0 Ht) as [_ H]; try lia.
    apply After_sec. lia.
Qed.

(** ** The service over a working store *)

Lemma Get_connected (s : sqldb.PasteService) (d : gorm.DB) (id : Z) :
  sqldb.db s = Some d -> gorm.outage d = None ->
  sqldb.Get s id = Ok (gorm.scan d <$> gorm.pastes d !! id).
Proof.
  intros Hdb Hout. unfold sqldb.Get, gorm.First. rewrite Hdb, Hout.
  destruct (gorm.pastes d !! id); reflexivity.
Qed.

Lemma Delete_connected (s : sqldb.PasteService) (d : gorm.DB) (id : Z) :
  sqldb.db s = Some d -> gorm.outage d = None ->
  sqldb.Delete s id
  = (Ok tt, sqldb.with_db s (gorm.with_pastes d (delete id (gorm.pastes d)))).
Proof.
  intros Hdb Hout. unfold sqldb.Delete, gorm.Delete. rewrite Hdb, Hout.
  reflexivity.
Qed.

Lemma Int63_range (rng : rand.Rand) : spec.is_int63 (fst (rand.Int63 rng)).
Proof.
  unfold rand.Int63, rand.Uint64, spec.is_int63. cbn [fst].
  change rand.rngMask with (Z.ones 63). rewrite Z.land_ones by lia.
  apply Z.mod_pos_bound. lia.
Qed.

Lemma Uint64_range (rng : rand.Rand) : spec.is_uint64 (fst (rand.Uint64 rng)).
Proof.
  unfold rand.Uint64, spec.is_uint64, wrapU64. cbn [fst].
  apply Z.mod_pos_bound. lia.
Qed.

Section Created.

Variable hash : string -> string -> Z -> bcrypt.error + string.

(** The paste [Create] builds from a form. *)
Lemma Create_attempt (s : sqldb.PasteService) (d : gorm.DB)
    (rng : rand.Rand) (now : time.Time) (salt : string)
    (p : api.Form.PasteForm) (e : time.Time) (h : string) :
  sqldb.db s = Some d ->
  sqldb.expiration (api.Form.Expires p) now = inr e ->
  sqldb.hashPassword hash salt (api.Form.Password p) = inr h ->
  sqldb.Create hash s rng now salt p
  = let paste :=
      {| api.ID := fst (rand.Int63 rng);
         api.Title := api.Form.Title p; api.Body := api.Form.Body p;
         api.Expires := e;
         api.DeleteAfterRead := api.Form.DeleteAfterRead p;
         api.Privacy := api.Form.Privacy p; api.Password := h;
         api.Created := now; api.Syntax := api.Form.Syntax p;
         api.UserID := api.Form.UserID p; api.User_ := api.noUser |} in
    let '(err, d') := gorm.Create d (api.Form.UserID p =? 0) paste in
    (match err with
     | Some err => Err (StoreError err)
     | None => Ok paste
     end, sqldb.with_db s d', snd (rand.Int63 rng)).
Proof.
  intros Hdb He Hh. unfold sqldb.Create. rewrite He, Hh, Hdb.
  destruct (rand.Int63 rng) as [id rng'] eqn:Hid. cbn [fst snd].
  destruct (api.Form.UserID p =? 0);
    destruct (gorm.Create d _ _) as [[err|] d']; reflexivity.
Qed.

(** A form whose id is free and whose owner the store accepts is
    stored. *)
Lemma Create_stores (s : sqldb.PasteService) (d : gorm.DB)
    (rng : rand.Rand) (now : time.Time) (salt : string)
    (p : api.Form.PasteForm) (e : time.Time) (h : string) :
  sqldb.db s = Some d ->
  sqldb.expiration (api.Form.Expires p) now = inr e ->
  sqldb.hashPassword hash salt (api.Form.Password p) = inr h ->
  gorm.outage d = None ->
  gorm.pastes d !! fst (rand.Int63 rng) = None ->
  api.Form.UserID p = 0 \/ gorm.foreign_keys d = false
    \/ is_Some (gorm.users d !! api.Form.UserID p) ->
  exists paste s' d',
    sqldb.Create hash s rng now salt p
    = (Ok paste, s', snd (rand.Int63 rng))
    /\ paste =
       {| api.ID := fst (rand.Int63 rng);
          api.Title := api.Form.Title p; api.Body := api.Form.Body p;
          api.Expires := e;
          api.DeleteAfterRead := api.Form.DeleteAfterRead p;
          api.Privacy := api.Form.Privacy p; api.Password := h;
          api.Created := now; api.Syntax := api.Form.Syntax p;
          api.UserID := api.Form.UserID p; api.User_ := api.noUser |}
    /\ sqldb.db s' = Some d'
    /\ gorm.columns <$> gorm.pastes d' !! api.ID paste = Some paste.
Proof.
  intros Hdb He Hh Hout Hfree Howner.
  rewrite (Create_attempt s d rng now salt p e h) by done.
  cbv zeta. unfold gorm.Create. rewrite Hout. cbn [api.ID api.UserID].
  rewrite Hfree.
  set (uid := if api.Form.UserID p =? 0 then None
              else Some (api.Form.UserID p)).
  assert (match uid with
          | Some u =>
              gorm.foreign_keys d && bool_decide (gorm.users d !! u = None)
          | None => false
          end = false) as ->.
  { subst uid. destruct (Z.eqb_spec (api.Form.UserID p) 0) as [|Hne];
      [reflexivity|].
    destruct Howner as [?|[->|[u Hu]]]; [done|reflexivity|].
    rewrite Hu. rewrite bool_decide_eq_false_2 by done.
    apply andb_false_r. }
  eexists _, _, _. do 3 (split; [reflexivity|]).
  cbn [gorm.pastes gorm.with_pastes api.ID].
  rewrite lookup_insert_eq. reflexivity.
Qed.

(** An error of the expiration leaves store and generator untouched. *)
Lemma Create_expiration_error (s : sqldb.PasteService) (rng : rand.Rand)
    (now : time.Time) (salt : string) (p : api.Form.PasteForm) (e : error) :
  sqldb.expiration (api.Form.Expires p) now = inl e ->
  sqldb.Create hash s rng now salt p = (Err e, s, rng).
Proof. intros He. unfold sqldb.Create. rewrite He. reflexivity. Qed.

End Created.

(** ** Reading a paste *)

(** [handlePaste] replies with whatever paste the service hands over. *)
Lemma handlePaste_found {S E : Type} `{svc : http.PasteService S E}
    (decode : string -> option Z) (h h' : S) (req : http.Request)
    (id : Z) (p : api.Paste) :
  decode (http.param_id req) = Some id ->
  http.Paste h id = (Some p, None, h') ->
  http.handlePaste decode h req
  = (http.Replied (http.respond http.StatusOK (http.JSON (Some p))),
     if api.DeleteAfterRead p then snd (http.Delete h' (api.ID p)) else h').
Proof.
  intros Hid Hp. unfold http.handlePaste. rewrite Hid, Hp.
  destruct (api.DeleteAfterRead p); reflexivity.
Qed.

(** C1, as stated, fails: the paste [fixture.stale] expired a month before
    the fetch at [fixture.noon], its row is still in the store, and [Get]
    returns it, while an id without a row is not found. *)
Lemma C1_expired_paste_is_returned :
  spec.expired fixture.stale fixture.noon = true
  /\ sqldb.Get (fixture.service fixture.staleDB) 7 = Ok (Some fixture.stale)
  /\ sqldb.Get (fixture.service fixture.staleDB) 8 = Ok None.
Proof. repeat split; vm_compute; reflexivity. Qed.

(** C1, amended: a fetch by id does not consult the expiration instant.
    For every paste whose expiration instant has passed, [Get] returns the
    paste as long as its row is in the store, and not-found once the row has
    been deleted; [handlePaste] replies 200 with the paste its service
    returns, expired or not. *)
Theorem C1_expired_paste_found_until_purged
    (s : sqldb.PasteService) (d : gorm.DB) (id : Z) (r : gorm.Row)
    (now : time.Time)
    {S E : Type} `{svc : http.PasteService S E}
    (decode : string -> option Z) (h h' : S) (req : http.Request)
    (p : api.Paste) :
  sqldb.db s = Some d -> gorm.outage d = None ->
  gorm.pastes d !! id = Some r ->
  spec.expired (gorm.scan d r) now = true ->
  decode (http.param_id req) = Some id ->
  http.Paste h id = (Some p, None, h') ->
  spec.expired p now = true ->
  sqldb.Get s id = Ok (Some (gorm.scan d r))
  /\ sqldb.Get (snd (sqldb.Delete s id)) id = Ok None
  /\ http.handlePaste decode h req
     = (http.Replied (http.respond http.StatusOK (http.JSON (Some p))),
        if api.DeleteAfterRead p then snd (http.Delete h' (api.ID p))
        else h').
Proof.
  intros Hdb Hout Hrow _ Hid Hp _. split; [|split].
  - rewrite (Get_connected s d) by done. rewrite Hrow. reflexivity.
  - rewrite (Delete_connected s d) by done. cbn [snd].
    erewrite Get_connected; [|reflexivity|exact Hout].
    cbn [gorm.pastes gorm.with_pastes]. rewrite lookup_delete_eq. reflexivity.
  - apply (handlePaste_found decode h h' req id p); done.
Qed.

(** C1 at the fixtures: the expired paste with the id 7. *)
Lemma C1_expired_paste_found_until_purged_witness :
  sqldb.Get (fixture.service fixture.staleDB) 7 = Ok (Some fixture.stale)
  /\ sqldb.Get (snd (sqldb.Delete (fixture.service fixture.staleDB) 7)) 7
     = Ok None
  /\ http.handlePaste fixture.decode ({[ 7 := fixture.stale ]} : gmap Z api.Paste)
       (fixture.request "7" api.emptyPaste)
     = (http.Replied
          (http.respond http.StatusOK (http.JSON (Some fixture.stale))),
        {[ 7 := fixture.stale ]}).
Proof.
  apply (C1_expired_paste_found_until_purged
           (fixture.service fixture.staleDB) fixture.staleDB 7
           {| gorm.columns := fixture.stale; gorm.user_id := None |}
           fixture.noon fixture.decode
           ({[ 7 := fixture.stale ]} : gmap Z api.Paste)
           ({[ 7 := fixture.stale ]} : gmap Z api.Paste)
           (fixture.request "7" api.emptyPaste) fixture.stale);
    vm_compute; reflexivity.
Defined.

(** C2, as stated, fails: [fixture.stale] has a non-empty password hash;
    [Get] takes no password, so none was supplied or verified, and the read
    succeeds. *)
Lemma C2_protected_paste_is_returned :
  api.Password fixture.stale <> ""
  /\ sqldb.Get (fixture.service fixture.staleDB) 7 = Ok (Some fixture.stale).
Proof. split; [discriminate|]. vm_compute. reflexivity. Qed.

(** C2, amended: a read verifies no password.  For every stored paste
    whose password hash is set and non-empty, [Get], which takes no
    password, succeeds and returns the paste together with its stored hash,
    and [handlePaste], whose request carries only the id, replies 200 with
    the paste its service returns. *)
Theorem C2_read_verifies_no_password
    (s : sqldb.PasteService) (d : gorm.DB) (id : Z) (r : gorm.Row)
    {S E : Type} `{svc : http.PasteService S E}
    (decode : string -> option Z) (h h' : S) (req : http.Request)
    (p : api.Paste) :
  sqldb.db s = Some d -> gorm.outage d = None ->
  gorm.pastes d !! id = Some r ->
  api.Password (gorm.columns r) <> "" ->
  decode (http.param_id req) = Some id ->
  http.Paste h id = (Some p, None, h') ->
  api.Password p <> "" ->
  (exists paste, sqldb.Get s id = Ok (Some paste)
                 /\ api.Password paste = api.Password (gorm.columns r))
  /\ fst (http.handlePaste decode h req)
     = http.Replied (http.respond http.StatusOK (http.JSON (Some p))).
Proof.
  intros Hdb Hout Hrow _ Hid Hp _. split.
  - exists (gorm.scan d r). split; [|reflexivity].
    rewrite (Get_connected s d) by done. rewrite Hrow. reflexivity.
  - rewrite (handlePaste_found decode h h' req id p) by done. reflexivity.
Qed.

(** C2 at the fixtures: the protected paste with the id 7. *)
Lemma C2_read_verifies_no_password_witness :
  (exists paste,
     sqldb.Get (fixture.service fixture.staleDB) 7 = Ok (Some paste)
     /\ api.Password paste = "$2a$10$hash")
  /\ fst (http.handlePaste fixture.decode
            ({[ 7 := fixture.stale ]} : gmap Z api.Paste)
            (fixture.request "7" api.emptyPaste))
     = http.Replied
         (http.respond http.StatusOK (http.JSON (Some fixture.stale))).
Proof.
  apply (C2_read_verifies_no_password
           (fixture.service fixture.staleDB) fixture.staleDB 7
           {| gorm.columns := fixture.stale; gorm.user_id := None |}
           fixture.decode
           ({[ 7 := fixture.stale ]} : gmap Z api.Paste)
           ({[ 7 := fixture.stale ]} : gmap Z api.Paste)
           (fixture.request "7" api.emptyPaste) fixture.stale);
    try discriminate; vm_compute; reflexivity.
Defined.

(** ** Creating a paste *)

(** C3, as stated, fails: the generator draws the id 7, the store holds a
    paste with the id 7, and the caller of [Create] receives the duplicate
    key error of the insert. *)
Lemma C3_duplicate_id_reaches_caller :
  fst (rand.Int63 (rand.Seed fixture.counter 7)) = 7
  /\ fst (fst (sqldb.Create fixture.hash (fixture.service fixture.staleDB)
                 (rand.Seed fixture.counter 7) fixture.noon "salt"
                 (fixture.form "t" "b" "never" "")))
     = Err (StoreError gorm.ErrDuplicatedKey).
Proof. split; vm_compute; reflexivity. Qed.

(** C3, amended: [Create] draws one id and makes one insert; when the id
    collides with a stored paste, the duplicate key error of the insert is
    returned to the caller of [Create], the store is left as it was and
    exactly one id has been drawn. *)
Theorem C3_single_insert_attempt
    (hash : string -> string -> Z -> bcrypt.error + string)
    (s : sqldb.PasteService) (d : gorm.DB) (rng : rand.Rand)
    (now : time.Time) (salt : string) (p : api.Form.PasteForm)
    (e : time.Time) (h : string) :
  sqldb.db s = Some d ->
  sqldb.expiration (api.Form.Expires p) now = inr e ->
  sqldb.hashPassword hash salt (api.Form.Password p) = inr h ->
  gorm.outage d = None ->
  is_Some (gorm.pastes d !! fst (rand.Int63 rng)) ->
  exists s' rng',
    sqldb.Create hash s rng now salt p
    = (Err (StoreError gorm.ErrDuplicatedKey), s', rng')
    /\ sqldb.db s' = Some d
    /\ rand.drawn rng' = S (rand.drawn rng).
Proof.
  intros Hdb He Hh Hout [row Hrow].
  rewrite (Create_attempt hash s d rng now salt p e h) by done.
  cbv zeta. unfold gorm.Create. rewrite Hout. cbn [api.ID]. rewrite Hrow.
  eexists _, _. split; [reflexivity|]. split; reflexivity.
Qed.

(** C3 at the fixtures: the generator draws the id 7, which is taken. *)
Lemma C3_single_insert_attempt_witness :
  exists s' rng',
    sqldb.Create fixture.hash (fixture.service fixture.staleDB)
      (rand.Seed fixture.counter 7) fixture.noon "salt"
      (fixture.form "t" "b" "never" "secret")
    = (Err (StoreError gorm.ErrDuplicatedKey), s', rng')
    /\ sqldb.db s' = Some fixture.staleDB
    /\ rand.drawn rng' = S (rand.drawn (rand.Seed fixture.counter 7)).
Proof.
  apply (C3_single_insert_attempt fixture.hash
           (fixture.service fixture.staleDB) fixture.staleDB
           (rand.Seed fixture.counter 7) fixture.noon "salt"
           (fixture.form "t" "b" "never" "secret") time.zero
           "$2a$salt$secret").
  - reflexivity.
  - reflexivity.
  - reflexivity.
  - reflexivity.
  - vm_compute. eauto.
Defined.

(** C8, as stated, fails: a form whose title and body are both empty is
    stored. *)
Lemma C8_empty_form_is_stored :
  exists paste s' rng',
    sqldb.Create fixture.hash (fixture.service fixture.emptyDB)
      fixture.counter fixture.noon "salt" (fixture.form "" "" "never" "")
    = (Ok paste, s', rng')
    /\ api.Title paste = "" /\ api.Body paste = ""
    /\ sqldb.Get s' (api.ID paste) = Ok (Some paste).
Proof. eexists _, _, _. repeat split; vm_compute; reflexivity. Qed.

(** C8, amended: [Create] does not validate the presence of title or body.
    Every form, whatever its title and body (both may be empty), whose
    expiration is well formed, whose password hashes, whose id is not taken
    and whose owner the store accepts, is stored with the title and the
    body as submitted. *)
Theorem C8_title_and_body_not_validated
    (hash : string -> string -> Z -> bcrypt.error + string)
    (s : sqldb.PasteService) (d : gorm.DB) (rng : rand.Rand)
    (now : time.Time) (salt : string) (p : api.Form.PasteForm)
    (e : time.Time) (h : string) :
  sqldb.db s = Some d ->
  sqldb.expiration (api.Form.Expires p) now = inr e ->
  sqldb.hashPassword hash salt (api.Form.Password p) = inr h ->
  gorm.outage d = None ->
  gorm.pastes d !! fst (rand.Int63 rng) = None ->
  api.Form.UserID p = 0 \/ gorm.foreign_keys d = false
    \/ is_Some (gorm.users d !! api.Form.UserID p) ->
  exists paste s' d',
    sqldb.Create hash s rng now salt p = (Ok paste, s', snd (rand.Int63 rng))
    /\ api.Title paste = api.Form.Title p
    /\ api.Body paste = api.Form.Body p
    /\ sqldb.db s' = Some d'
    /\ gorm.columns <$> gorm.pastes d' !! api.ID paste = Some paste.
Proof.
  intros Hdb He Hh Hout Hfree Howner.
  destruct (Create_stores hash s d rng now salt p e h)
    as (paste & s' & d' & Hc & -> & Hs' & Hrow); try done.
  eexists _, s', d'. split; [exact Hc|]. repeat split; done.
Qed.

(** C8 at the fixtures: a form with neither title nor body. *)
Lemma C8_title_and_body_not_validated_witness :
  exists paste s' d',
    sqldb.Create fixture.hash (fixture.service fixture.emptyDB)
      fixture.counter fixture.noon "salt" (fixture.form "" "" "1h" "")
    = (Ok paste, s', snd (rand.Int63 fixture.counter))
    /\ api.Title paste = "" /\ api.Body paste = ""
    /\ sqldb.db s' = Some d'
    /\ gorm.columns <$> gorm.pastes d' !! api.ID paste = Some paste.
Proof.
  apply (C8_title_and_body_not_validated fixture.hash
           (fixture.service fixture.emptyDB) fixture.emptyDB
           fixture.counter fixture.noon "salt" (fixture.form "" "" "1h" "")
           (time.Add fixture.noon (60 * time.Minute)) "").
  - reflexivity.
  - vm_compute. reflexivity.
  - reflexivity.
  - reflexivity.
  - vm_compute. reflexivity.
  - left. reflexivity.
Defined.

(** ** Deleting a paste *)

Lemma with_pastes_same (d : gorm.DB) : gorm.with_pastes d (gorm.pastes d) = d.
Proof. destruct d. reflexivity. Qed.

Lemma handleDelete_ok {S E : Type} `{svc : http.PasteService S E}
    (decode : string -> option Z) (h h' : S) (req : http.Request) (id : Z) :
  decode (http.param_id req) = Some id ->
  http.Delete h id = (None, h') ->
  http.handleDelete decode h req
  = (http.Replied (http.respond http.StatusOK http.Empty), h').
Proof.
  intros Hid Hd. unfold http.handleDelete. rewrite Hid, Hd. reflexivity.
Qed.




(** ** Malformed expirations *)

Lemma expiration_short (expr : string) (t : time.Time) :
  len expr <= 1 -> sqldb.expiration expr t = inr time.zero.
Proof.
  intros H. unfold sqldb.expiration.
  assert ((1 <? len expr) = false) as -> by (apply Z.ltb_ge; lia).
  rewrite andb_false_r. reflexivity.
Qed.

Lemma expiration_rejects (expr : string) (t : time.Time) :
  expr <> "never" -> 2 <= len expr ->
  spec.is_signed_duration expr = false ->
  exists e, sqldb.expiration expr t = inl e
            /\ (e = UnknownDurationFormat expr
                \/ exists cause, e = WrongDurationFormat expr cause).
Proof.
  intros Hnever Hlen Hbad. unfold sqldb.expiration.
  assert (String.eqb expr "never" = false) as ->
    by (apply String.eqb_neq; exact Hnever).
  assert ((1 <? len expr) = true) as -> by (apply Z.ltb_lt; lia).
  cbn [negb andb].
  destruct (strconv.Atoi (init expr)) as [dur [cause|]] eqn:HA.
  { eexists. split; [reflexivity|]. right. eauto. }
  apply Atoi_accepts in HA.
  destruct (last_byte_Some expr) as [u Hu].
  { intros ->. unfold len in Hlen. simpl in Hlen. lia. }
  unfold spec.is_signed_duration in Hbad. rewrite Hu, HA in Hbad.
  cbn [andb] in Hbad. rewrite Hu.
  apply is_unit_false in Hbad as (-> & -> & -> & -> & -> & ->).
  eexists. split; [reflexivity|]. left. reflexivity.
Qed.




(** ** Expiration and creation instants *)

Lemma After_zero (t : time.Time) :
  spec.instant t -> time.After time.zero t = false.
Proof.
  intros [Hns Hsec]. unfold time.After, time.zero. cbn [time.sec time.nsec].
  rewrite orb_false_iff, andb_false_iff, !Z.ltb_ge. lia.
Qed.

Lemma After_not_never (e t : time.Time) :
  spec.instant t -> time.After e t = true -> spec.never e = false.
Proof.
  intros [Hns Hsec]. unfold time.After, spec.never, time.IsZero.
  rewrite orb_true_iff, andb_true_iff, andb_false_iff, !Z.ltb_lt, Z.eqb_eq,
    !Z.eqb_neq. lia.
Qed.




(** ** The ids of new pastes *)

Lemma Create_Ok_id
    (hash : string -> string -> Z -> bcrypt.error + string)
    (s s' : sqldb.PasteService) (rng rng' : rand.Rand) (now : time.Time)
    (salt : string) (p : api.Form.PasteForm) (paste : api.Paste) :
  sqldb.Create hash s rng now salt p = (Ok paste, s', rng') ->
  api.ID paste = fst (rand.Int63 rng) /\ rng' = snd (rand.Int63 rng).
Proof.
  unfold sqldb.Create.
  destruct (sqldb.expiration _ _) as [e|e]; [discriminate|].
  destruct (sqldb.hashPassword _ _ _) as [err|h]; [discriminate|].
  destruct (rand.Int63 rng) as [id r] eqn:Hid.
  destruct (sqldb.db s) as [d|]; [|discriminate].
  destruct (if api.Form.UserID p =? 0 then _ else _) as [[err|] d'];
    [discriminate|].
  intros [= <- _ <-]. split; reflexivity.
Qed.

Section Handler.

Context {S E : Type} `{svc : http.PasteService S E}.
Variable URL : api.Paste -> string.

(** A request with an acceptable Content-Type and a body holding a single
    JSON object reaches the service's [Create]. *)
Lemma handleCreate_accepted (h : S) (rng : rand.Rand)
    (seed_now now : time.Time) (req : http.Request) (data : api.Paste) :
  http.ContentType req = "" \/ http.ContentType req = "application/json" ->
  http.decoded req = inr data -> http.rest_is_EOF req = true ->
  http.handleCreate URL h rng seed_now now req
  = (http.created URL
       (http.Create h
          (http.newPaste data
             (fst (rand.Uint64 (rand.Seed rng (time.UnixNano seed_now))))
             now)),
     snd (rand.Uint64 (rand.Seed rng (time.UnixNano seed_now)))).
Proof.
  intros Hct Hdata Hrest. unfold http.handleCreate.
  assert (negb (String.eqb (http.ContentType req) "")
          && negb (String.eqb (http.ContentType req) "application/json")
          = false) as ->.
  { destruct Hct as [-> | ->]; reflexivity. }
  rewrite Hdata, Hrest. reflexivity.
Qed.

End Handler.

(** C6, as stated, fails on the path through [handleCreate]: with a
    generator whose output has the top bit set, the paste handed to the
    service, stored and returned has the id 2^63, which 63 bits do not
    hold. *)
Lemma C6_handler_id_exceeds_63_bits :
  fst (http.handleCreate fixture.url (∅ : gmap Z api.Paste) fixture.high
         fixture.noon fixture.noon (fixture.request "" api.emptyPaste))
  = (http.Replied
       {| http.Status := http.StatusCreated;
          http.Location := Some "/p/";
          http.Written :=
            http.JSON
              (Some (http.newPaste api.emptyPaste (2 ^ 63) fixture.noon)) |},
     {[ 2 ^ 63 := http.newPaste api.emptyPaste (2 ^ 63) fixture.noon ]})
  /\ ~ spec.is_int63
         (api.ID (http.newPaste api.emptyPaste (2 ^ 63) fixture.noon)).
Proof.
  split.
  - vm_compute. reflexivity.
  - unfold spec.is_int63. cbn [api.ID http.newPaste]. lia.
Qed.

(** C6, amended: every id assigned by [PasteService.Create] is a
    non-negative integer representable in 63 bits (it is drawn with
    [rand.Int63]); the id assigned by [handleCreate] is drawn with
    [rand.Uint64] and is a non-negative integer representable in 64
    bits. *)
Theorem C6_id_ranges
    (hash : string -> string -> Z -> bcrypt.error + string)
    (s s' : sqldb.PasteService) (rng rng' : rand.Rand) (now : time.Time)
    (salt : string) (p : api.Form.PasteForm) (paste : api.Paste)
    {S E : Type} `{svc : http.PasteService S E}
    (URL : api.Paste -> string) (h : S) (hrng : rand.Rand)
    (seed_now hnow : time.Time) (req : http.Request) (data : api.Paste) :
  sqldb.Create hash s rng now salt p = (Ok paste, s', rng') ->
  http.ContentType req = "" \/ http.ContentType req = "application/json" ->
  http.decoded req = inr data -> http.rest_is_EOF req = true ->
  spec.is_int63 (api.ID paste)
  /\ exists q hrng',
       http.handleCreate URL h hrng seed_now hnow req
       = (http.created URL (http.Create h q), hrng')
       /\ spec.is_uint64 (api.ID q).
Proof.
  intros Hc Hct Hdata Hrest. split.
  - apply Create_Ok_id in Hc as [-> _]. apply Int63_range.
  - eexists _, _. split.
    + apply handleCreate_accepted; eassumption.
    + cbn [api.ID http.newPaste]. apply Uint64_range.
Qed.

(** C6 at the fixtures: the service draws 7, the handler draws 2^63. *)
Lemma C6_id_ranges_witness :
  spec.is_int63 7
  /\ exists q hrng',
       http.handleCreate fixture.url (∅ : gmap Z api.Paste) fixture.high
         fixture.noon fixture.noon (fixture.request "" api.emptyPaste)
       = (http.created fixture.url (http.Create ∅ q), hrng')
       /\ spec.is_uint64 (api.ID q).
Proof.
  apply (C6_id_ranges fixture.hash (fixture.service fixture.emptyDB)
           (snd (fst (sqldb.Create fixture.hash
                        (fixture.service fixture.emptyDB)
                        (rand.Seed fixture.counter 7) fixture.noon "salt"
                        (fixture.form "t" "b" "never" ""))))
           (rand.Seed fixture.counter 7)
           (snd (rand.Int63 (rand.Seed fixture.counter 7)))
           fixture.noon "salt" (fixture.form "t" "b" "never" "")
           {| api.ID := 7; api.Title := "t"; api.Body := "b";
              api.Expires := time.zero; api.DeleteAfterRead := false;
              api.Privacy := "public"; api.Password := "";
              api.Created := fixture.noon; api.Syntax := "text";
              api.UserID := 0; api.User_ := api.noUser |}
           fixture.url (∅ : gmap Z api.Paste) fixture.high fixture.noon
           fixture.noon (fixture.request "" api.emptyPaste) api.emptyPaste).
  - vm_compute. reflexivity.
  - right. reflexivity.
  - reflexivity.
  - reflexivity.
Defined.

(** C9: for every request that [handleCreate] accepts (an acceptable
    Content-Type and a body that decodes to a single JSON object), the paste
    handed to the service to be stored has the zero expiration instant, no
    password, no privacy value and no owner, whatever the request body
    supplied for them; its title, body, deleteAfterRead and syntax are the
    ones of the request, its id is the one drawn and its creation instant
    the reading of the clock. *)
Theorem C9_handler_takes_four_fields
    {S E : Type} `{svc : http.PasteService S E}
    (URL : api.Paste -> string) (h : S) (rng : rand.Rand)
    (seed_now now : time.Time) (req : http.Request) (data : api.Paste) :
  http.ContentType req = "" \/ http.ContentType req = "application/json" ->
  http.decoded req = inr data -> http.rest_is_EOF req = true ->
  exists p rng',
    http.handleCreate URL h rng seed_now now req
    = (http.created URL (http.Create h p), rng')
    /\ api.Expires p = time.zero
    /\ api.Password p = ""
    /\ api.Privacy p = ""
    /\ api.UserID p = 0 /\ api.User_ p = api.noUser
    /\ api.Title p = api.Title data
    /\ api.Body p = api.Body data
    /\ api.DeleteAfterRead p = api.DeleteAfterRead data
    /\ api.Syntax p = api.Syntax data
    /\ api.ID p = fst (rand.Uint64 (rand.Seed rng (time.UnixNano seed_now)))
    /\ api.Created p = now.
Proof.
  intros Hct Hdata Hrest. eexists _, _. split.
  - apply handleCreate_accepted; eassumption.
  - repeat split; reflexivity.
Qed.

(** C9 at the fixtures: the request body is [fixture.stale], which has an
    expiration instant and a password. *)
Lemma C9_handler_takes_four_fields_witness :
  exists p rng',
    http.handleCreate fixture.url (∅ : gmap Z api.Paste) fixture.counter
      fixture.june fixture.noon (fixture.request "" fixture.stale)
    = (http.created fixture.url (http.Create ∅ p), rng')
    /\ api.Expires p = time.zero
    /\ api.Password p = ""
    /\ api.Privacy p = ""
    /\ api.UserID p = 0 /\ api.User_ p = api.noUser
    /\ api.Title p = "t"
    /\ api.Body p = "b"
    /\ api.DeleteAfterRead p = false
    /\ api.Syntax p = "text"
    /\ api.ID p
       = fst (rand.Uint64
                (rand.Seed fixture.counter (time.UnixNano fixture.june)))
    /\ api.Created p = fixture.noon.
Proof.
  apply (C9_handler_takes_four_fields fixture.url (∅ : gmap Z api.Paste)
           fixture.counter fixture.june fixture.noon
           (fixture.request "" fixture.stale) fixture.stale).
  - right. reflexivity.
  - reflexivity.
  - reflexivity.
Defined.

Lemma New_Ok (opts : sqldb.SvcOptions) (now : time.Time)
    (rng rng' : rand.Rand) (s : sqldb.PasteService) :
  sqldb.New opts now rng = (Ok s, rng') ->
  rng' = rand.Seed rng (time.UnixNano now).
Proof.
  unfold sqldb.New. destruct (_ && _); intros [= _ <-]; reflexivity.
Qed.



(** * Further properties of the service *)

(** ** Get *)

(** X1: [Get] tells a missing paste from a failing store.  It returns
    not-found exactly when the store is reachable and holds no row with the
    id, and an error exactly when there is no connection or the store is
    failing. *)
Theorem Get_not_found_iff (s : sqldb.PasteService) (id : Z) :
  (sqldb.Get s id = Ok None
   <-> exists d, sqldb.db s = Some d /\ gorm.outage d = None
                 /\ gorm.pastes d !! id = None)
  /\ ((exists e, sqldb.Get s id = Err e)
      <-> sqldb.db s = None
          \/ exists d msg, sqldb.db s = Some d /\ gorm.outage d = Some msg).
Proof.
  unfold sqldb.Get, gorm.First.
  destruct (sqldb.db s) as [d|]; [destruct (gorm.outage d) as [msg|] eqn:Hout;
    [|destruct (gorm.pastes d !! id) as [r|] eqn:Hrow]|].
  - split; split.
    + discriminate.
    + intros (d' & [= <-] & Hout' & _). congruence.
    + intros _. right. eauto.
    + intros _. eauto.
  - split; split.
    + discriminate.
    + intros (d' & [= <-] & _ & Hrow'). congruence.
    + intros [e He]. discriminate.
    + intros [?|(d' & msg & [= <-] & Hout')]; congruence.
  - split; split.
    + intros _. eauto.
    + reflexivity.
    + intros [e He]. discriminate.
    + intros [?|(d' & msg & [= <-] & Hout')]; congruence.
  - split; split.
    + discriminate.
    + intros (d' & ? & _). discriminate.
    + intros _. left. reflexivity.
    + intros _. eauto.
Qed.

(** ** Create *)

(** A statement that inserts returns no error exactly when it has added
    the row; on an error the store is as before. *)
Lemma gorm_Create_None (d d' : gorm.DB) (omit : bool) (p : api.Paste) :
  gorm.Create d omit p = (None, d') ->
  gorm.outage d = None /\ gorm.pastes d !! api.ID p = None
  /\ d' = gorm.with_pastes d
            (<[api.ID p :=
                 {| gorm.columns := p;
                    gorm.user_id :=
                      if omit then None else Some (api.UserID p) |}]>
               (gorm.pastes d)).
Proof.
  unfold gorm.Create.
  destruct (gorm.outage d); [discriminate|].
  destruct (gorm.pastes d !! api.ID p); [discriminate|].
  destruct (match (if omit then None else Some (api.UserID p)) with
            | Some u => _ | None => false end); [discriminate|].
  intros [= <-]. done.
Qed.

Lemma gorm_Create_Some (d d' : gorm.DB) (omit : bool) (p : api.Paste)
    (err : gorm.error) :
  gorm.Create d omit p = (Some err, d') -> d' = d.
Proof.
  unfold gorm.Create.
  destruct (gorm.outage d); [intros [= _ <-]; done|].
  destruct (gorm.pastes d !! api.ID p); [intros [= _ <-]; done|].
  destruct (match (if omit then None else Some (api.UserID p)) with
            | Some u => _ | None => false end); [|discriminate].
  intros [= _ <-]. done.
Qed.

Lemma with_db_same (s : sqldb.PasteService) (d : gorm.DB) :
  sqldb.db s = Some d -> sqldb.with_db s d = s.
Proof. destruct s as [db opts]. cbn. intros ->. reflexivity. Qed.

(** What a successful [Create] has done. *)
Lemma Create_Ok_inv
    (hash : string -> string -> Z -> bcrypt.error + string)
    (s s' : sqldb.PasteService) (rng rng' : rand.Rand) (now : time.Time)
    (salt : string) (p : api.Form.PasteForm) (paste : api.Paste) :
  sqldb.Create hash s rng now salt p = (Ok paste, s', rng') ->
  exists d e h,
    sqldb.db s = Some d /\ gorm.outage d = None
    /\ gorm.pastes d !! fst (rand.Int63 rng) = None
    /\ sqldb.expiration (api.Form.Expires p) now = inr e
    /\ sqldb.hashPassword hash salt (api.Form.Password p) = inr h
    /\ paste =
       {| api.ID := fst (rand.Int63 rng);
          api.Title := api.Form.Title p; api.Body := api.Form.Body p;
          api.Expires := e;
          api.DeleteAfterRead := api.Form.DeleteAfterRead p;
          api.Privacy := api.Form.Privacy p; api.Password := h;
          api.Created := now; api.Syntax := api.Form.Syntax p;
          api.UserID := api.Form.UserID p; api.User_ := api.noUser |}
    /\ s' = sqldb.with_db s
              (gorm.with_pastes d
                 (<[fst (rand.Int63 rng) :=
                      {| gorm.columns := paste;
                         gorm.user_id :=
                           if api.Form.UserID p =? 0 then None
                           else Some (api.Form.UserID p) |}]>
                    (gorm.pastes d)))
    /\ rng' = snd (rand.Int63 rng).
Proof.
  intros Hc. unfold sqldb.Create in Hc.
  destruct (sqldb.expiration _ _) as [?|e] eqn:He; [discriminate|].
  destruct (sqldb.hashPassword _ _ _) as [?|h] eqn:Hh; [discriminate|].
  destruct (rand.Int63 rng) as [id r] eqn:Hid.
  destruct (sqldb.db s) as [d|] eqn:Hdb; [|discriminate].
  exists d, e, h. cbn [fst snd].
  destruct (api.Form.UserID p =? 0) eqn:Huid;
    destruct (gorm.Create d _ _) as [[err|] d'] eqn:Hg; try discriminate;
    injection Hc as <- <- <-;
    apply gorm_Create_None in Hg as (Hout & Hfree & ->); done.
Qed.

(** What a failed [Create] has done: nothing to the store. *)
Lemma Create_not_Ok_db
    (hash : string -> string -> Z -> bcrypt.error + string)
    (s s' : sqldb.PasteService) (rng rng' : rand.Rand) (now : time.Time)
    (salt : string) (p : api.Form.PasteForm) (r : result api.Paste) :
  sqldb.Create hash s rng now salt p = (r, s', rng') ->
  (forall paste, r <> Ok paste) -> s' = s.
Proof.
  intros Hc Hr. unfold sqldb.Create in Hc.
  destruct (sqldb.expiration _ _) as [?|e]; [congruence|].
  destruct (sqldb.hashPassword _ _ _) as [?|h]; [congruence|].
  destruct (rand.Int63 rng) as [id g].
  destruct (sqldb.db s) as [d|] eqn:Hdb; [|congruence].
  destruct (api.Form.UserID p =? 0);
    destruct (gorm.Create d _ _) as [[err|] d'] eqn:Hg;
    injection Hc as <- <- <-;
    try (exfalso; eapply Hr; reflexivity);
    apply gorm_Create_Some in Hg as ->; apply with_db_same, Hdb.
Qed.

(** X2: what [Create] returns is what [Get] reads back.  After a
    successful [Create] of a form without an owner, [Get] of the new id
    returns the very paste [Create] returned. *)
Theorem Create_then_Get
    (hash : string -> string -> Z -> bcrypt.error + string)
    (s s' : sqldb.PasteService) (rng rng' : rand.Rand) (now : time.Time)
    (salt : string) (p : api.Form.PasteForm) (paste : api.Paste) :
  sqldb.Create hash s rng now salt p = (Ok paste, s', rng') ->
  api.Form.UserID p = 0 ->
  sqldb.Get s' (api.ID paste) = Ok (Some paste).
Proof.
  intros Hc Huid.
  apply Create_Ok_inv in Hc
    as (d & e & h & Hdb & Hout & Hfree & He & Hh & -> & -> & ->).
  erewrite Get_connected; [|reflexivity|exact Hout].
  cbn [gorm.pastes gorm.with_pastes api.ID]. rewrite lookup_insert_eq.
  rewrite Huid. reflexivity.
Qed.

(** X2 at the fixtures. *)
Lemma Create_then_Get_witness :
  sqldb.Get
    (snd (fst (sqldb.Create fixture.hash (fixture.service fixture.staleDB)
                 fixture.nine fixture.noon "salt"
                 (fixture.form "t" "b" "1h" "pw"))))
    (api.ID fixture.hourly)
  = Ok (Some fixture.hourly).
Proof.
  apply (Create_then_Get fixture.hash (fixture.service fixture.staleDB) _
           fixture.nine (snd (rand.Int63 fixture.nine)) fixture.noon
           "salt" (fixture.form "t" "b" "1h" "pw") fixture.hourly).
  - vm_compute. reflexivity.
  - reflexivity.
Defined.

(** X3: a paste with an owner is read back with the owner joined.  After
    a successful [Create] of a form whose owner is a user of the store,
    [Get] of the new id returns the paste [Create] returned with the
    owner's record in its [User] field. *)
Theorem Create_then_Get_owner
    (hash : string -> string -> Z -> bcrypt.error + string)
    (s s' : sqldb.PasteService) (d : gorm.DB) (rng rng' : rand.Rand)
    (now : time.Time) (salt : string) (p : api.Form.PasteForm)
    (paste : api.Paste) (u : api.User) :
  sqldb.Create hash s rng now salt p = (Ok paste, s', rng') ->
  sqldb.db s = Some d ->
  api.Form.UserID p <> 0 ->
  gorm.users d !! api.Form.UserID p = Some u ->
  sqldb.Get s' (api.ID paste)
  = Ok (Some
      {| api.ID := api.ID paste; api.Title := api.Title paste;
         api.Body := api.Body paste; api.Expires := api.Expires paste;
         api.DeleteAfterRead := api.DeleteAfterRead paste;
         api.Privacy := api.Privacy paste;
         api.Password := api.Password paste;
         api.Created := api.Created paste; api.Syntax := api.Syntax paste;
         api.UserID := api.Form.UserID p; api.User_ := u |}).
Proof.
  intros Hc Hdb Huid Hu.
  apply Create_Ok_inv in Hc
    as (d0 & e & h & Hdb0 & Hout & Hfree & He & Hh & -> & -> & ->).
  assert (d0 = d) as -> by congruence.
  erewrite Get_connected; [|reflexivity|exact Hout].
  cbn [gorm.pastes gorm.with_pastes api.ID]. rewrite lookup_insert_eq.
  apply Z.eqb_neq in Huid. rewrite Huid.
  cbn. unfold gorm.scan. cbn. rewrite Hu. reflexivity.
Qed.

(** X3 at the fixtures: a paste of [fixture.alice]. *)
Lemma Create_then_Get_owner_witness :
  sqldb.Get
    (snd (fst (sqldb.Create fixture.hash (fixture.service fixture.aliceDB)
                 fixture.nine fixture.noon "salt" fixture.aliceForm)))
    9
  = Ok (Some
      {| api.ID := 9; api.Title := "mine"; api.Body := "b";
         api.Expires := time.zero; api.DeleteAfterRead := true;
         api.Privacy := "private"; api.Password := "";
         api.Created := fixture.noon; api.Syntax := "go";
         api.UserID := 5; api.User_ := fixture.alice |}).
Proof.
  apply (Create_then_Get_owner fixture.hash
           (fixture.service fixture.aliceDB) _ fixture.aliceDB
           fixture.nine (snd (rand.Int63 fixture.nine)) fixture.noon "salt"
           fixture.aliceForm
           {| api.ID := 9; api.Title := "mine"; api.Body := "b";
              api.Expires := time.zero; api.DeleteAfterRead := true;
              api.Privacy := "private"; api.Password := "";
              api.Created := fixture.noon; api.Syntax := "go";
              api.UserID := 5; api.User_ := api.noUser |} fixture.alice).
  - vm_compute. reflexivity.
  - reflexivity.
  - discriminate.
  - vm_compute. reflexivity.
Defined.

(** X4: a [Create] that does not succeed stores nothing.  Whatever the
    reason (a malformed expiration, a failing hash, a taken id, a rejected
    owner, a failing store, no connection), the service is left exactly as
    it was. *)
Theorem Create_failure_stores_nothing
    (hash : string -> string -> Z -> bcrypt.error + string)
    (s s' : sqldb.PasteService) (rng rng' : rand.Rand) (now : time.Time)
    (salt : string) (p : api.Form.PasteForm) (r : result api.Paste) :
  sqldb.Create hash s rng now salt p = (r, s', rng') ->
  (forall paste, r <> Ok paste) ->
  s' = s /\ (rng' = rng \/ rng' = snd (rand.Int63 rng)).
Proof.
  intros Hc Hr. split; [eapply Create_not_Ok_db; eassumption|].
  unfold sqldb.Create in Hc.
  destruct (sqldb.expiration _ _) as [?|e]; [left; congruence|].
  destruct (sqldb.hashPassword _ _ _) as [?|h]; [left; congruence|].
  destruct (rand.Int63 rng) as [id g]. right. cbn [snd].
  destruct (sqldb.db s) as [d|]; [|congruence].
  destruct (if api.Form.UserID p =? 0 then _ else _) as [[err|] d'];
    congruence.
Qed.

(** X4 at the fixtures: the id drawn is taken. *)
Lemma Create_failure_stores_nothing_witness :
  fixture.service fixture.staleDB = fixture.service fixture.staleDB
  /\ (snd (rand.Int63 (rand.Seed fixture.counter 7))
      = rand.Seed fixture.counter 7
      \/ snd (rand.Int63 (rand.Seed fixture.counter 7))
         = snd (rand.Int63 (rand.Seed fixture.counter 7))).
Proof.
  apply (Create_failure_stores_nothing fixture.hash
           (fixture.service fixture.staleDB) (fixture.service fixture.staleDB)
           (rand.Seed fixture.counter 7)
           (snd (rand.Int63 (rand.Seed fixture.counter 7)))
           fixture.noon "salt" (fixture.form "t" "b" "never" "")
           (Err (StoreError gorm.ErrDuplicatedKey))).
  - vm_compute. reflexivity.
  - discriminate.
Defined.

(** X5: [Create] never changes or removes a paste that is already
    stored: whatever [Create] returns, a paste that [Get] found before is
    found unchanged afterwards. *)
Theorem Create_preserves_pastes
    (hash : string -> string -> Z -> bcrypt.error + string)
    (s s' : sqldb.PasteService) (rng rng' : rand.Rand) (now : time.Time)
    (salt : string) (p : api.Form.PasteForm) (r : result api.Paste)
    (id : Z) (q : api.Paste) :
  sqldb.Create hash s rng now salt p = (r, s', rng') ->
  sqldb.Get s id = Ok (Some q) ->
  sqldb.Get s' id = Ok (Some q).
Proof.
  intros Hc Hq. destruct r as [paste|e|].
  - apply Create_Ok_inv in Hc
      as (d & e & h & Hdb & Hout & Hfree & He & Hh & -> & -> & ->).
    rewrite (Get_connected s d) in Hq by done.
    erewrite Get_connected; [|reflexivity|exact Hout].
    cbn [gorm.pastes gorm.with_pastes].
    destruct (Z.eq_dec (fst (rand.Int63 rng)) id) as [<-|Hne].
    + rewrite Hfree in Hq. discriminate.
    + rewrite lookup_insert_ne by done.
      destruct (gorm.pastes d !! id) as [row|]; [|discriminate].
      exact Hq.
  - apply Create_not_Ok_db in Hc as ->; [exact Hq|discriminate].
  - apply Create_not_Ok_db in Hc as ->; [exact Hq|discriminate].
Qed.

(** X5 at the fixtures: [fixture.stale] survives the creation of another
    paste. *)
Lemma Create_preserves_pastes_witness :
  sqldb.Get
    (snd (fst (sqldb.Create fixture.hash (fixture.service fixture.staleDB)
                 fixture.nine fixture.noon "salt"
                 (fixture.form "t" "b" "1h" "pw"))))
    7
  = Ok (Some fixture.stale).
Proof.
  apply (Create_preserves_pastes fixture.hash
           (fixture.service fixture.staleDB) _
           fixture.nine (snd (rand.Int63 fixture.nine)) fixture.noon
           "salt" (fixture.form "t" "b" "1h" "pw") (Ok fixture.hourly)
           7 fixture.stale).
  - vm_compute. reflexivity.
  - vm_compute. reflexivity.
Defined.

(** X6: the password column holds what bcrypt returned.  In a paste that
    [Create] returns, an empty password of the form stays empty and is not
    hashed, and a non-empty one is replaced by the result of
    [bcrypt.GenerateFromPassword] at the default cost. *)
Theorem Create_stores_the_hash
    (hash : string -> string -> Z -> bcrypt.error + string)
    (s s' : sqldb.PasteService) (rng rng' : rand.Rand) (now : time.Time)
    (salt : string) (p : api.Form.PasteForm) (paste : api.Paste) :
  sqldb.Create hash s rng now salt p = (Ok paste, s', rng') ->
  (api.Form.Password p = "" /\ api.Password paste = "")
  \/ (api.Form.Password p <> ""
      /\ hash salt (api.Form.Password p) bcrypt.DefaultCost
         = inr (api.Password paste)).
Proof.
  intros Hc.
  apply Create_Ok_inv in Hc
    as (d & e & h & Hdb & Hout & Hfree & He & Hh & -> & -> & ->).
  cbn [api.Password]. unfold sqldb.hashPassword in Hh.
  destruct (String.eqb_spec (api.Form.Password p) "") as [Hpw|Hpw].
  - left. cbn in Hh. split; [exact Hpw|]. congruence.
  - right. cbn in Hh. split; [exact Hpw|exact Hh].
Qed.

(** X6 at the fixtures. *)
Lemma Create_stores_the_hash_witness :
  ("pw" = "" /\ api.Password fixture.hourly = "")
  \/ ("pw" <> ""
      /\ fixture.hash "salt" "pw" bcrypt.DefaultCost
         = inr (api.Password fixture.hourly)).
Proof.
  apply (Create_stores_the_hash fixture.hash
           (fixture.service fixture.staleDB)
           (snd (fst (sqldb.Create fixture.hash
                        (fixture.service fixture.staleDB) fixture.nine
                        fixture.noon "salt"
                        (fixture.form "t" "b" "1h" "pw"))))
           fixture.nine (snd (rand.Int63 fixture.nine)) fixture.noon
           "salt" (fixture.form "t" "b" "1h" "pw") fixture.hourly).
  vm_compute. reflexivity.
Defined.

(** ** Delete *)

(** X7: [Delete] touches no other paste: for every id other than the
    deleted one, [Get] returns after the delete what it returned before,
    whether the delete succeeded, failed or panicked. *)
Theorem Delete_leaves_other_pastes (s : sqldb.PasteService) (id other : Z) :
  other <> id ->
  sqldb.Get (snd (sqldb.Delete s id)) other = sqldb.Get s other.
Proof.
  intros Hne. unfold sqldb.Delete, gorm.Delete.
  destruct (sqldb.db s) as [d|] eqn:Hdb; [|reflexivity].
  destruct (gorm.outage d) as [msg|] eqn:Hout; cbn [snd].
  - rewrite with_db_same by done. reflexivity.
  - rewrite (Get_connected s d) by done.
    erewrite Get_connected; [|reflexivity|exact Hout].
    cbn [gorm.pastes gorm.with_pastes]. rewrite lookup_delete_ne by done.
    destruct (gorm.pastes d !! other); reflexivity.
Qed.

(** X7 at the fixtures. *)
Lemma Delete_leaves_other_pastes_witness :
  sqldb.Get (snd (sqldb.Delete (fixture.service fixture.staleDB) 8)) 7
  = sqldb.Get (fixture.service fixture.staleDB) 7.
Proof.
  apply (Delete_leaves_other_pastes (fixture.service fixture.staleDB) 8 7).
  discriminate.
Defined.

(** X8: deleting the paste just created undoes the creation: the service
    is back to the store it had before [Create]. *)
Theorem Create_then_Delete
    (hash : string -> string -> Z -> bcrypt.error + string)
    (s s' : sqldb.PasteService) (rng rng' : rand.Rand) (now : time.Time)
    (salt : string) (p : api.Form.PasteForm) (paste : api.Paste) :
  sqldb.Create hash s rng now salt p = (Ok paste, s', rng') ->
  sqldb.Delete s' (api.ID paste) = (Ok tt, s).
Proof.
  intros Hc.
  apply Create_Ok_inv in Hc
    as (d & e & h & Hdb & Hout & Hfree & He & Hh & -> & -> & ->).
  erewrite Delete_connected; [|reflexivity|exact Hout].
  cbn [gorm.pastes gorm.with_pastes api.ID sqldb.with_db sqldb.Options].
  rewrite delete_insert_id by done.
  f_equal. unfold gorm.with_pastes. cbn.
  destruct s as [sdb sopts]. cbn in *. subst sdb. destruct d. reflexivity.
Qed.

(** X8 at the fixtures. *)
Lemma Create_then_Delete_witness :
  sqldb.Delete
    (snd (fst (sqldb.Create fixture.hash (fixture.service fixture.staleDB)
                 fixture.nine fixture.noon "salt"
                 (fixture.form "t" "b" "1h" "pw"))))
    (api.ID fixture.hourly)
  = (Ok tt, fixture.service fixture.staleDB).
Proof.
  apply (Create_then_Delete fixture.hash (fixture.service fixture.staleDB) _
           fixture.nine (snd (rand.Int63 fixture.nine)) fixture.noon
           "salt" (fixture.form "t" "b" "1h" "pw") fixture.hourly).
  vm_compute. reflexivity.
Defined.

(** ** List *)

Lemma Find_elem (d : gorm.DB) (owner : option Z) (p : api.Paste) :
  gorm.outage d = None ->
  p ∈ snd (gorm.Find d owner)
  <-> exists id r, gorm.pastes d !! id = Some r /\ gorm.user_id r = owner
                   /\ p = gorm.scan_columns r.
Proof.
  intros Hout. unfold gorm.Find. rewrite Hout. cbn [snd].
  rewrite list_elem_of_fmap. split.
  - intros (r & -> & Hr). apply list_elem_of_filter in Hr as [Hown Hr].
    apply list_elem_of_fmap in Hr as ([id r'] & -> & Hr).
    apply elem_of_map_to_list in Hr. eauto.
  - intros (id & r & Hrow & Hown & ->). exists r. split; [reflexivity|].
    apply list_elem_of_filter. split; [exact Hown|].
    apply list_elem_of_fmap. exists (id, r). split; [reflexivity|].
    apply elem_of_map_to_list. exact Hrow.
Qed.

(** X9: [List(uid)] returns the pastes of one owner and no others.  Over
    a working store, a paste is in the result exactly when it is the scan of
    a stored row whose [user_id] is [uid], or is NULL when [uid] is 0: the
    anonymous listing never contains a paste that has an owner, and a
    user's listing never contains anonymous pastes or another user's. *)
Theorem List_elem (s : sqldb.PasteService) (d : gorm.DB) (uid : Z)
    (p : api.Paste) :
  sqldb.db s = Some d -> gorm.outage d = None ->
  exists l,
    sqldb.List s uid = Ok l
    /\ (p ∈ l
        <-> exists id r,
              gorm.pastes d !! id = Some r
              /\ gorm.user_id r = (if uid =? 0 then None else Some uid)
              /\ p = gorm.scan_columns r).
Proof.
  intros Hdb Hout. unfold sqldb.List. rewrite Hdb.
  destruct (uid =? 0); eexists; (split; [reflexivity|]);
    apply Find_elem; exact Hout.
Qed.

(** X9 at the fixtures. *)
Lemma List_elem_witness :
  exists l,
    sqldb.List (fixture.service fixture.staleDB) 0 = Ok l
    /\ (fixture.stale ∈ l
        <-> exists id r,
              gorm.pastes fixture.staleDB !! id = Some r
              /\ gorm.user_id r = None
              /\ fixture.stale = gorm.scan_columns r).
Proof.
  apply (List_elem (fixture.service fixture.staleDB) fixture.staleDB 0
           fixture.stale); reflexivity.
Defined.

(** X10: [List] does not report a failing store: the error of the query
    is dropped and the result is the empty listing, the same as for an owner
    without pastes. *)
Theorem List_hides_outage (s : sqldb.PasteService) (d : gorm.DB)
    (msg : string) (uid : Z) :
  sqldb.db s = Some d -> gorm.outage d = Some msg ->
  sqldb.List s uid = Ok [].
Proof.
  intros Hdb Hout. unfold sqldb.List, gorm.Find. rewrite Hdb, Hout.
  destruct (uid =? 0); reflexivity.
Qed.

(** X10 at the fixtures. *)
Lemma List_hides_outage_witness :
  sqldb.List (fixture.service fixture.downDB) 0 = Ok [].
Proof.
  apply (List_hides_outage (fixture.service fixture.downDB) fixture.downDB
           "connection refused" 0); reflexivity.
Defined.

(** X11: a new paste shows up in its owner's listing and in no other.
    After a successful [Create], the listing of the form's owner (the
    anonymous listing when the owner is 0) contains the paste [Create]
    returned, and the listing of any other owner does not. *)
Theorem Create_then_List
    (hash : string -> string -> Z -> bcrypt.error + string)
    (s s' : sqldb.PasteService) (rng rng' : rand.Rand) (now : time.Time)
    (salt : string) (p : api.Form.PasteForm) (paste : api.Paste)
    (other : Z) :
  sqldb.Create hash s rng now salt p = (Ok paste, s', rng') ->
  other <> api.Form.UserID p ->
  exists mine others,
    sqldb.List s' (api.Form.UserID p) = Ok mine
    /\ sqldb.List s' other = Ok others
    /\ paste ∈ mine
    /\ paste ∉ others.
Proof.
  intros Hc Hother.
  apply Create_Ok_inv in Hc
    as (d & e & h & Hdb & Hout & Hfree & He & Hh & -> & -> & ->).
  set (uid := api.Form.UserID p) in *.
  set (paste := {| api.ID := fst (rand.Int63 rng) |}).
  set (owner := if uid =? 0 then None else Some uid).
  set (row := {| gorm.columns := paste; gorm.user_id := owner |}).
  set (d' := gorm.with_pastes d _).
  assert (gorm.outage d' = None) as Hout' by exact Hout.
  assert (default 0 owner = uid) as Hdef.
  { subst owner. destruct (Z.eqb_spec uid 0) as [->|]; reflexivity. }
  destruct (List_elem (sqldb.with_db s d') d' uid paste eq_refl Hout')
    as (mine & Hmine & Hin).
  destruct (List_elem (sqldb.with_db s d') d' other paste eq_refl Hout')
    as (others & Hothers & Hnotin).
  exists mine, others. split; [exact Hmine|]. split; [exact Hothers|]. split.
  - apply Hin. exists (fst (rand.Int63 rng)), row.
    split; [apply lookup_insert_eq|]. split; [reflexivity|].
    unfold gorm.scan_columns. cbn. rewrite Hdef. reflexivity.
  - intros Hp. apply Hnotin in Hp as (id & r & _ & Hown & Heq).
    apply (f_equal api.UserID) in Heq. cbn in Heq. rewrite Hown in Heq.
    fold uid in Heq.
    destruct (Z.eqb_spec other 0) as [->|Hne]; cbn in Heq; congruence.
Qed.

(** X11 at the fixtures: a paste of [fixture.alice] is in her listing and
    not in the anonymous one. *)
Lemma Create_then_List_witness :
  exists mine others,
    sqldb.List
      (snd (fst (sqldb.Create fixture.hash (fixture.service fixture.aliceDB)
                   fixture.nine fixture.noon "salt" fixture.aliceForm)))
      5 = Ok mine
    /\ sqldb.List
         (snd (fst (sqldb.Create fixture.hash
                      (fixture.service fixture.aliceDB)
                      fixture.nine fixture.noon "salt" fixture.aliceForm)))
         0 = Ok others
    /\ fixture.mine ∈ mine
    /\ fixture.mine ∉ others.
Proof.
  apply (Create_then_List fixture.hash (fixture.service fixture.aliceDB) _
           fixture.nine (snd (rand.Int63 fixture.nine)) fixture.noon "salt"
           fixture.aliceForm fixture.mine 0).
  - vm_compute. reflexivity.
  - discriminate.
Defined.

(** ** New *)

(** X12: [New] accepts a nil connection, and the methods of the service
    it returns differ on it: [Get] reports an error, while [Delete], [List]
    and a [Create] whose form passes the checks dereference the nil handle
    and panic. *)
Theorem New_without_connection
    (hash : string -> string -> Z -> bcrypt.error + string)
    (opts : sqldb.SvcOptions) (now : time.Time) (rng : rand.Rand)
    (id : Z) (t : time.Time) (salt : string) (p : api.Form.PasteForm)
    (e : time.Time) (h : string) (g : rand.Rand) :
  sqldb.DBConnection opts = None -> sqldb.DBAutoMigrate opts = false ->
  sqldb.expiration (api.Form.Expires p) t = inr e ->
  sqldb.hashPassword hash salt (api.Form.Password p) = inr h ->
  exists s,
    fst (sqldb.New opts now rng) = Ok s
    /\ sqldb.Get s id = Err GetNoConnection
    /\ fst (sqldb.Delete s id) = Panic
    /\ sqldb.List s id = Panic
    /\ fst (fst (sqldb.Create hash s g t salt p)) = Panic.
Proof.
  intros Hconn Hmig He Hh. unfold sqldb.New. rewrite Hconn, Hmig.
  eexists. split; [reflexivity|].
  unfold sqldb.Get, sqldb.Delete, sqldb.List, sqldb.Create.
  cbn [sqldb.db]. rewrite He, Hh.
  destruct (rand.Int63 g). repeat split; reflexivity.
Qed.

(** X12 at the fixtures. *)
Lemma New_without_connection_witness :
  exists s,
    fst (sqldb.New {| sqldb.DBConnection := None;
                      sqldb.DBAutoMigrate := false |}
           fixture.june fixture.counter) = Ok s
    /\ sqldb.Get s 7 = Err GetNoConnection
    /\ fst (sqldb.Delete s 7) = Panic
    /\ sqldb.List s 7 = Panic
    /\ fst (fst (sqldb.Create fixture.hash s fixture.nine fixture.noon
                   "salt" (fixture.form "t" "b" "1h" "pw"))) = Panic.
Proof.
  apply (New_without_connection fixture.hash
           {| sqldb.DBConnection := None; sqldb.DBAutoMigrate := false |}
           fixture.june fixture.counter 7 fixture.noon "salt"
           (fixture.form "t" "b" "1h" "pw")
           (time.Date 2021 7 1 13 30 45 5) "$2a$salt$pw" fixture.nine);
    reflexivity.
Defined.

(** ** Expirations, exactly *)

Lemma Add_seconds (t : time.Time) (k : Z) :
  0 <= time.nsec t < 1000000000 ->
  time.Add t (k * 1000000000)
  = {| time.sec := time.sec t + k; time.nsec := time.nsec t |}.
Proof.
  intros Hns. unfold time.Add.
  rewrite Z.quot_mul, Z.rem_mul by lia. rewrite Z.add_0_r.
  destruct (1000000000 <=? time.nsec t) eqn:H1;
    [apply Z.leb_le in H1; lia|].
  destruct (time.nsec t <? 0) eqn:H2; [apply Z.ltb_lt in H2; lia|].
  reflexivity.
Qed.

Lemma norm_12_floor (hi lo : Z) :
  time.norm hi lo 12 = (hi + lo / 12, lo mod 12).
Proof.
  destruct (Z_lt_le_dec lo 0) as [Hneg|Hpos]; [|apply norm_12; exact Hpos].
  unfold time.norm.
  destruct (lo <? 0) eqn:H0; [|apply Z.ltb_ge in H0; lia].
  destruct (12 <=? lo + (Z.quot (- lo - 1) 12 + 1) * 12) eqn:H1.
  - apply Z.leb_le in H1. exfalso. revert H1.
    Z.to_euclidean_division_equations. lia.
  - f_equal; Z.to_euclidean_division_equations; lia.
Qed.

(** [time.Date] on any month and day, with in-range clock fields. *)
Lemma Date_monthStart_any (year month day hour min s ns : Z) :
  0 <= hour < 24 -> 0 <= min < 60 -> 0 <= s < 60 ->
  0 <= ns < 1000000000 ->
  time.Date year month day hour min s ns
  = {| time.sec :=
         (calendar.monthStart (12 * (year - 1) + (month - 1)) + (day - 1))
         * 86400 + (hour * 3600 + min * 60 + s);
       time.nsec := ns |}.
Proof.
  intros Hh Hmi Hs Hns. unfold time.Date.
  rewrite norm_12_floor.
  rewrite (norm_id s ns) by lia. rewrite (norm_id min s) by lia.
  rewrite (norm_id hour min) by lia. rewrite (norm_id day hour) by lia.
  unfold calendar.monthStart, time.secondsPerDay. cbv zeta.
  replace (1 + (12 * (year - 1) + (month - 1)) / 12)
    with (year + (month - 1) / 12) by (Z.to_euclidean_division_equations; lia).
  replace ((12 * (year - 1) + (month - 1)) mod 12)
    with ((month - 1) mod 12) by (Z.to_euclidean_division_equations; lia).
  replace ((month - 1) mod 12 + 1 - 1) with ((month - 1) mod 12) by lia.
  destruct (_ && _); f_equal; lia.
Qed.

(** An instant in terms of its month index and day of the month. *)
Lemma sec_monthStart (t : time.Time) :
  spec.instant t ->
  1 <= calendar.dayOfMonth t <= 31
  /\ time.sec t
     = (calendar.monthStart (calendar.monthIndex t)
        + (calendar.dayOfMonth t - 1)) * 86400 + time.sec t mod 86400.
Proof.
  intros [Hns Hsec]. unfold calendar.monthIndex, calendar.dayOfMonth.
  pose proof (Date_date_clock t Hns) as Hr.
  pose proof (clock_spec t) as Hc.
  destruct (time.date t) as [[year month] day].
  destruct (time.clock t) as [[hour min] s].
  destruct Hr as (_ & Hday & _ & _ & _ & Heq).
  destruct Hc as (_ & _ & _ & Hc).
  split; [exact Hday|]. rewrite <- Hc. exact Heq.
Qed.

(** [t.AddDate] in terms of the month index of [t]. *)
Lemma AddDate_monthStart (t : time.Time) (years months days : Z) :
  spec.instant t ->
  - 2 ^ 40 <= years <= 2 ^ 40 -> - 2 ^ 40 <= months <= 2 ^ 40 ->
  - 2 ^ 40 <= days <= 2 ^ 40 ->
  time.AddDate t years months days
  = {| time.sec :=
         (calendar.monthStart
            (calendar.monthIndex t + (12 * years + months))
          + (calendar.dayOfMonth t + days - 1)) * 86400
         + time.sec t mod 86400;
       time.nsec := time.nsec t |}.
Proof.
  intros [Hns Hsec] Hy Hm Hd.
  unfold time.AddDate, calendar.monthIndex, calendar.dayOfMonth.
  pose proof (date_bounds t Hsec) as Hb.
  pose proof (clock_spec t) as Hc.
  destruct (time.date t) as [[year month] day].
  destruct (time.clock t) as [[hour min] s].
  destruct Hb as (Hyear & Hmonth & Hday).
  destruct Hc as (Hh & Hmi & Hs & Hc).
  rewrite !wrap64_small by lia.
  rewrite Date_monthStart_any by lia. rewrite Hc.
  replace (12 * (year + years - 1) + (month + months - 1))
    with (12 * (year - 1) + (month - 1) + (12 * years + months)) by lia.
  reflexivity.
Qed.

(** Adding days moves the instant by whole days. *)
Lemma AddDate_days (t : time.Time) (days : Z) :
  spec.instant t -> - 2 ^ 40 <= days <= 2 ^ 40 ->
  time.AddDate t 0 0 days
  = {| time.sec := time.sec t + 86400 * days; time.nsec := time.nsec t |}.
Proof.
  intros Ht Hd.
  rewrite AddDate_monthStart by (try exact Ht; lia).
  destruct (sec_monthStart t Ht) as [_ Hs].
  f_equal. replace (calendar.monthIndex t + (12 * 0 + 0))
    with (calendar.monthIndex t) by lia. lia.
Qed.



(** X14: a year is twelve months.  For magnitudes in range, [n]y and
    [12 n]M expire at the same instant. *)
Theorem expiration_year_is_twelve_months
    (t : time.Time) (years months : string) :
  spec.instant t ->
  spec.is_magnitude years = true -> spec.is_magnitude months = true ->
  spec.value years <= 1000000000 ->
  spec.value months = 12 * spec.value years ->
  sqldb.expiration (years ++ "y") t = sqldb.expiration (months ++ "M") t.
Proof.
  intros Ht Hy Hm Hv Heq.
  assert (0 <= spec.value years) as H0.
  { destruct years; [discriminate|].
    apply (value_from_ge _ 0); [exact Hy|lia]. }
  rewrite !expiration_unfold by (try done; unfold maxInt64; lia).
  cbv zeta. cbn [Ascii.eqb Bool.eqb]. f_equal.
  rewrite !AddDate_monthStart by (try exact Ht; lia).
  rewrite Heq.
  replace (12 * 0 + 12 * spec.value years) with (12 * spec.value years + 0)
    by lia.
  reflexivity.
Qed.

(** X14 at the fixtures. *)
Lemma expiration_year_is_twelve_months_witness :
  sqldb.expiration ("3" ++ "y") fixture.noon
  = sqldb.expiration ("36" ++ "M") fixture.noon.
Proof.
  apply (expiration_year_is_twelve_months fixture.noon "3" "36").
  - unfold spec.instant; vm_compute; repeat split; discriminate.
  - reflexivity.
  - reflexivity.
  - vm_compute. discriminate.
  - reflexivity.
Defined.

(** No month has more than 31 days. *)
Lemma monthStart_succ_le (M : Z) :
  calendar.monthStart (M + 1) <= calendar.monthStart M + 31.
Proof.
  unfold calendar.monthStart. cbv zeta.
  set (q := M / 12). set (r := M mod 12).
  assert (M = 12 * q + r /\ 0 <= r < 12) as [HM Hr]
    by (subst q r; Z.to_euclidean_division_equations; lia).
  clearbody q r. subst M.
  destruct (Z.eq_dec r 11) as [->|Hne].
  - replace ((12 * q + 11 + 1) / 12) with (q + 1)
      by (Z.to_euclidean_division_equations; lia).
    replace ((12 * q + 11 + 1) mod 12) with 0
      by (Z.to_euclidean_division_equations; lia).
    replace (1 + (q + 1)) with (1 + q + 1) by lia.
    rewrite daysSinceEpoch_succ. unfold calendar.leapDay.
    destruct (time.isLeap (1 + q)), (time.isLeap (1 + q + 1));
      eval_calendar; lia.
  - replace ((12 * q + r + 1) / 12) with q
      by (Z.to_euclidean_division_equations; lia).
    replace ((12 * q + r + 1) mod 12) with (r + 1)
      by (Z.to_euclidean_division_equations; lia).
    assert (r = 0 \/ r = 1 \/ r = 2 \/ r = 3 \/ r = 4 \/ r = 5 \/ r = 6
            \/ r = 7 \/ r = 8 \/ r = 9 \/ r = 10) as Hcases by lia.
    destruct (time.isLeap (1 + q));
      repeat (destruct Hcases as [->|Hcases]); try subst r;
      eval_calendar; lia.
Qed.

Lemma monthStart_add_le (M k : Z) :
  0 <= k -> calendar.monthStart (M + k) <= calendar.monthStart M + 31 * k.
Proof.
  intros Hk. pattern k. apply natlike_ind; [| |exact Hk].
  - replace (M + 0) with M by lia. lia.
  - intros j Hj IH. pose proof (monthStart_succ_le (M + j)).
    replace (M + Z.succ j) with (M + j + 1) by lia. lia.
Qed.

(** Twelve months are 365 or 366 days. *)
Lemma monthStart_year (M : Z) :
  calendar.monthStart M + 365 <= calendar.monthStart (M + 12)
  <= calendar.monthStart M + 366.
Proof.
  unfold calendar.monthStart. cbv zeta.
  set (q := M / 12). set (r := M mod 12).
  assert (M = 12 * q + r /\ 0 <= r < 12) as [HM Hr]
    by (subst q r; Z.to_euclidean_division_equations; lia).
  clearbody q r. subst M.
  replace ((12 * q + r + 12) / 12) with (q + 1)
    by (Z.to_euclidean_division_equations; lia).
  replace ((12 * q + r + 12) mod 12) with r
    by (Z.to_euclidean_division_equations; lia).
  replace (1 + (q + 1)) with (1 + q + 1) by lia.
  rewrite daysSinceEpoch_succ. unfold calendar.leapDay.
  destruct (time.isLeap (1 + q)) eqn:HL1, (time.isLeap (1 + q + 1)) eqn:HL2;
    cbn [andb]; destruct (3 <=? r + 1); try lia.
  (* two leap years in a row do not exist *)
  all: apply isLeap_spec in HL1, HL2; exfalso; revert HL1 HL2;
    Z.to_euclidean_division_equations; lia.
Qed.

Lemma monthStart_years (M k : Z) :
  0 <= k ->
  calendar.monthStart M + 365 * k <= calendar.monthStart (M + 12 * k)
  <= calendar.monthStart M + 366 * k.
Proof.
  intros Hk. pattern k. apply natlike_ind; [| |exact Hk].
  - replace (M + 12 * 0) with M by lia. lia.
  - intros j Hj IH. pose proof (monthStart_year (M + 12 * j)).
    replace (M + 12 * Z.succ j) with (M + 12 * j + 12) by lia. lia.
Qed.



(** ** Magnitudes out of range, and negative ones *)

Lemma value_from_lt (s : string) (n : Z) :
  spec.every_digit s = true -> 0 <= n ->
  spec.value_from n s < (n + 1) * 10 ^ len s.
Proof.
  revert n. induction s as [|c r IH]; intros n; simpl.
  - intros _ Hn. change (len "") with 0. lia.
  - intros H Hn. apply andb_true_iff in H as [Hc Hr].
    apply is_digit_range in Hc. rewrite len_String.
    pose proof (len_nonneg r) as Hl.
    rewrite Z.pow_add_r by lia. change (10 ^ 1) with 10.
    specialize (IH (n * 10 + (byte_val c - 48)) Hr ltac:(lia)).
    assert (0 < 10 ^ len r) as Hp by (apply Z.pow_pos_nonneg; lia).
    nia.
Qed.

Lemma ParseUint_loop_digits (s : string) (n : Z) :
  spec.every_digit s = true -> 0 <= n < 2 ^ 64 ->
  (strconv.ParseUint_loop s n = (spec.value_from n s, None)
   /\ spec.value_from n s < 2 ^ 64)
  \/ (strconv.ParseUint_loop s n = (strconv.maxUint64, Some strconv.ErrRange)
      /\ 2 ^ 64 <= spec.value_from n s).
Proof.
  revert n. induction s as [|c r IH]; intros n; simpl.
  - intros _ Hn. left. split; [reflexivity|lia].
  - intros H Hn. apply andb_true_iff in H as [Hc Hr].
    assert (strconv.digit c = Some (byte_val c - 48)) as ->
      by (apply digit_Some; done).
    apply is_digit_range in Hc.
    pose proof (value_from_ge r (n * 10 + (byte_val c - 48)) Hr) as Hge.
    assert (strconv.cutoff10 = 1844674407370955162) as Hcut by reflexivity.
    destruct (strconv.cutoff10 <=? n) eqn:Hcmp.
    { apply Z.leb_le in Hcmp. right. split; [reflexivity|lia]. }
    apply Z.leb_gt in Hcmp. unfold wrapU64.
    destruct (Z_lt_le_dec (n * 10 + (byte_val c - 48)) (2 ^ 64)) as [Hfit|Hov].
    + rewrite Z.mod_small by lia.
      assert ((n * 10 + (byte_val c - 48) <? n * 10) = false) as ->
        by (apply Z.ltb_ge; lia).
      apply IH; [exact Hr|lia].
    + assert (((n * 10 + (byte_val c - 48)) mod 2 ^ 64 <? n * 10) = true)
        as ->.
      { apply Z.ltb_lt. Z.to_euclidean_division_equations. lia. }
      right. split; [reflexivity|lia].
Qed.

(** A magnitude beyond int64 is a range error of [strconv.Atoi]. *)
Lemma Atoi_overflow (s : string) :
  spec.is_magnitude s = true -> maxInt64 < spec.value s ->
  strconv.Atoi s
  = (maxInt64,
     Some {| strconv.Func := "Atoi"; strconv.Num := s;
             strconv.Err := strconv.ErrRange |}).
Proof.
  intros Hm Hv. destruct s as [|c r]; [discriminate|].
  pose proof (is_magnitude_not_sign c r Hm) as Hsign.
  assert (strconv.is_minus c = false) as Hminus.
  { unfold strconv.is_sign in Hsign.
    apply orb_false_iff in Hsign as [_ Hs]. exact Hs. }
  rewrite is_magnitude_String in Hm.
  pose proof (value_from_lt (String c r) 0 Hm ltac:(lia)) as Hlt.
  fold (spec.value (String c r)) in Hlt.
  unfold maxInt64 in *. unfold strconv.Atoi.
  assert (((0 <? len (String c r)) && (len (String c r) <? 19)) = false)
    as ->.
  { apply andb_false_iff. right. apply Z.ltb_ge.
    destruct (Z_lt_le_dec (len (String c r)) 19) as [Hshort|]; [|done].
    exfalso. pose proof (len_nonneg (String c r)).
    assert (10 ^ len (String c r) <= 10 ^ 18)
      by (apply Z.pow_le_mono_r; lia).
    lia. }
  unfold strconv.ParseInt. rewrite Hsign, Hminus. unfold strconv.ParseUint.
  destruct (ParseUint_loop_digits (String c r) 0 Hm ltac:(lia))
    as [[-> Hfit]|[-> Hov]].
  - fold (spec.value (String c r)).
    assert ((2 ^ 63 <=? spec.value (String c r)) = true) as ->
      by (apply Z.leb_le; lia).
    reflexivity.
  - reflexivity.
Qed.

(** X16: a magnitude that does not fit an int64 is rejected.  Whatever
    the trailing character, an expression whose magnitude is a run of digits
    denoting more than 2^63 - 1 makes [Create] fail with the wrong duration
    format error that carries the expression and the range error of
    [strconv.Atoi] on the magnitude; nothing is stored and no id is
    drawn. *)
Theorem Create_rejects_overflowing_magnitude
    (hash : string -> string -> Z -> bcrypt.error + string)
    (s : sqldb.PasteService) (rng : rand.Rand) (now : time.Time)
    (salt : string) (p : api.Form.PasteForm) (digits : string) (u : ascii) :
  api.Form.Expires p = digits ++ String u "" ->
  spec.is_magnitude digits = true -> maxInt64 < spec.value digits ->
  sqldb.Create hash s rng now salt p
  = (Err (WrongDurationFormat (api.Form.Expires p)
            {| strconv.Func := "Atoi"; strconv.Num := digits;
               strconv.Err := strconv.ErrRange |}), s, rng).
Proof.
  intros Hp Hm Hv. apply Create_expiration_error.
  rewrite Hp. unfold sqldb.expiration.
  rewrite duration_not_never by done.
  rewrite len_app, init_app.
  assert ((1 <? len digits + 1) = true) as ->.
  { apply Z.ltb_lt. destruct digits; [discriminate|].
    rewrite len_String. pose proof (len_nonneg digits). lia. }
  rewrite (Atoi_overflow digits Hm Hv). reflexivity.
Qed.

(** X16 at the fixtures: 2^63 minutes. *)
Lemma Create_rejects_overflowing_magnitude_witness :
  sqldb.Create fixture.hash (fixture.service fixture.staleDB) fixture.nine
    fixture.noon "salt" (fixture.form "t" "b" "9223372036854775808m" "")
  = (Err (WrongDurationFormat "9223372036854775808m"
            {| strconv.Func := "Atoi"; strconv.Num := "9223372036854775808";
               strconv.Err := strconv.ErrRange |}),
     fixture.service fixture.staleDB, fixture.nine).
Proof.
  apply (Create_rejects_overflowing_magnitude fixture.hash
           (fixture.service fixture.staleDB) fixture.nine fixture.noon "salt"
           (fixture.form "t" "b" "9223372036854775808m" "")
           "9223372036854775808" "m").
  - reflexivity.
  - reflexivity.
  - vm_compute. reflexivity.
Defined.

(** [strconv.Atoi] on a negative number. *)
Lemma Atoi_negative (s : string) :
  spec.is_magnitude s = true -> spec.value s <= maxInt64 ->
  strconv.Atoi (String "-" s) = (- spec.value s, None).
Proof.
  intros Hm Hv. destruct s as [|c r]; [discriminate|].
  rewrite is_magnitude_String in Hm.
  pose proof (value_from_ge (String c r) 0 Hm) as Hge.
  unfold maxInt64 in Hv. fold (spec.value (String c r)) in Hge.
  unfold strconv.Atoi.
  destruct ((0 <? len (String "-" (String c r)))
            && (len (String "-" (String c r)) <? 19)).
  - change (strconv.is_sign "-") with true.
    change (strconv.is_minus "-") with true. cbn [andb].
    assert ((len (String c r) <? 1) = false) as ->.
    { apply Z.ltb_ge. rewrite len_String. pose proof (len_nonneg r). lia. }
    rewrite (fast_loop_value _ 0 Hm). reflexivity.
  - unfold strconv.ParseInt.
    change (strconv.is_sign "-") with true.
    change (strconv.is_minus "-") with true.
    unfold strconv.ParseUint.
    rewrite (ParseUint_loop_value _ 0 Hm)
      by (fold (spec.value (String c r)); lia).
    fold (spec.value (String c r)). cbn [negb andb].
    assert ((2 ^ 63 <? spec.value (String c r)) = false) as ->
      by (apply Z.ltb_ge; lia).
    rewrite (wrap64_small (spec.value (String c r))) by lia.
    rewrite wrap64_small by lia. reflexivity.
Qed.

Lemma expiration_unfold_negative (s : string) (u : ascii) (t : time.Time) :
  spec.is_magnitude s = true -> spec.value s <= maxInt64 ->
  sqldb.expiration (String "-" s ++ String u "") t =
  let dur := - spec.value s in
  if (u =? "m")%char then
    inr (time.Add t (wrap64 (dur * time.Minute)))
  else if (u =? "h")%char then
    inr (time.Add t (wrap64 (dur * time.Hour)))
  else if (u =? "d")%char then
    inr (time.AddDate t 0 0 dur)
  else if (u =? "w")%char then
    inr (time.AddDate t 0 0 (wrap64 (dur * 7)))
  else if (u =? "M")%char then
    inr (time.AddDate t 0 dur 0)
  else if (u =? "y")%char then
    inr (time.AddDate t dur 0 0)
  else inl (UnknownDurationFormat (String "-" s ++ String u "")).
Proof.
  intros Hm Hv. unfold sqldb.expiration.
  assert (String.eqb (String "-" s ++ String u "") "never" = false) as ->
    by reflexivity.
  rewrite len_app, init_app, last_byte_app.
  assert ((1 <? len (String "-" s) + 1) = true) as ->.
  { apply Z.ltb_lt. rewrite len_String. pose proof (len_nonneg s). lia. }
  rewrite (Atoi_negative s Hm Hv). reflexivity.
Qed.

Lemma Before_sec (t u : time.Time) :
  time.sec t < time.sec u -> time.Before t u = true.
Proof.
  intros H. unfold time.Before. apply orb_true_iff. left. apply Z.ltb_lt, H.
Qed.

(** X17: a negative magnitude is accepted and expires in the past.  For
    every unit, a magnitude [n] from 1 up to [spec.max_magnitude] of the
    unit and a creation instant in range, the expression [-n] followed by
    the unit yields an expiration instant strictly before the creation
    instant: the paste is created already expired. *)
Theorem expiration_of_negative_magnitude
    (t : time.Time) (digits : string) (u : ascii) :
  spec.instant t ->
  spec.is_magnitude digits = true -> spec.is_unit u = true ->
  1 <= spec.value digits <= spec.max_magnitude u ->
  exists e, sqldb.expiration (String "-" digits ++ String u "") t = inr e
            /\ time.Before e t = true.
Proof.
  intros Ht Hm Hu Hv.
  assert (spec.value digits <= maxInt64) as Hmax.
  { unfold maxInt64. transitivity 1000000000; [|lia].
    destruct Hv as [_ Hv]. etransitivity; [exact Hv|].
    unfold spec.max_magnitude. repeat (destruct (_ =? _)%char); lia. }
  rewrite expiration_unfold_negative by done. cbv zeta.
  pose proof Ht as [Hns Hsec].
  destruct (sec_monthStart t Ht) as [_ Hs].
  set (n := spec.value digits) in *.
  apply is_unit_cases in Hu as [ -> | [ -> | [ -> | [ -> | [ -> | -> ]]]]];
    cbn [Ascii.eqb Bool.eqb]; cbn [spec.max_magnitude Ascii.eqb Bool.eqb] in Hv;
    eexists; (split; [reflexivity|]).
  - unfold time.Minute, time.Second, time.Nanosecond.
    rewrite wrap64_small by lia.
    replace (- n * (60 * (1000000000 * 1))) with (- (60 * n) * 1000000000)
      by lia.
    rewrite Add_seconds by exact Hns. apply Before_sec. cbn. lia.
  - unfold time.Hour, time.Minute, time.Second, time.Nanosecond.
    rewrite wrap64_small by lia.
    replace (- n * (60 * (60 * (1000000000 * 1))))
      with (- (3600 * n) * 1000000000) by lia.
    rewrite Add_seconds by exact Hns. apply Before_sec. cbn. lia.
  - rewrite AddDate_days by (try exact Ht; lia). apply Before_sec. cbn. lia.
  - rewrite wrap64_small by lia.
    rewrite AddDate_days by (try exact Ht; lia). apply Before_sec. cbn. lia.
  - rewrite AddDate_monthStart by (try exact Ht; lia). apply Before_sec.
    cbn [time.sec].
    pose proof (monthStart_add (calendar.monthIndex t + (12 * 0 + - n)) n
                  ltac:(lia)) as Hmono.
    replace (calendar.monthIndex t + (12 * 0 + - n) + n)
      with (calendar.monthIndex t) in Hmono by lia.
    lia.
  - rewrite AddDate_monthStart by (try exact Ht; lia). apply Before_sec.
    cbn [time.sec].
    pose proof (monthStart_add (calendar.monthIndex t + (12 * - n + 0))
                  (12 * n) ltac:(lia)) as Hmono.
    replace (calendar.monthIndex t + (12 * - n + 0) + 12 * n)
      with (calendar.monthIndex t) in Hmono by lia.
    lia.
Qed.

(** X17 at the fixtures: minus five days. *)
Lemma expiration_of_negative_magnitude_witness :
  exists e, sqldb.expiration (String "-" "5" ++ String "d" "") fixture.noon
            = inr e
            /\ time.Before e fixture.noon = true.
Proof.
  apply (expiration_of_negative_magnitude fixture.noon "5" "d").
  - unfold spec.instant; vm_compute; repeat split; discriminate.
  - reflexivity.
  - reflexivity.
  - vm_compute; split; discriminate.
Defined.

(** ** Months keep the day of the month *)

Lemma monthDay_fits_table :
  forallb (fun i => calendar.monthDay_fits 4 (Z.of_nat i)) (seq 0 366)
  && forallb (fun i => calendar.monthDay_fits 1 (Z.of_nat i)) (seq 0 365)
  = true.
Proof. vm_compute. reflexivity. Qed.

Lemma monthDay_fits_spec (year yday : Z) :
  0 <= yday < 365 + calendar.leapDay year ->
  let '(m, d) := time.monthDay year yday in
  time.daysBefore (m - 1) + (if time.isLeap year && (3 <=? m) then 1 else 0)
  + d
  <= time.daysBefore m + (if time.isLeap year && (2 <=? m) then 1 else 0).
Proof.
  intros Hy.
  assert (calendar.monthDay_fits (if time.isLeap year then 4 else 1) yday
          = true) as Hok.
  { pose proof monthDay_fits_table as Ht.
    apply andb_true_iff in Ht as [H4 H1].
    rewrite forallb_forall in H4, H1. unfold calendar.leapDay in Hy.
    rewrite <- (Z2Nat.id yday) by lia.
    destruct (time.isLeap year); [apply H4 | apply H1]; apply in_seq; lia. }
  unfold calendar.monthDay_fits in Hok. rewrite <- monthDay_leap in Hok.
  destruct (time.monthDay year yday) as [m d].
  replace (time.isLeap (if time.isLeap year then 4 else 1))
    with (time.isLeap year) in Hok by (destruct (time.isLeap year); reflexivity).
  apply Z.leb_le in Hok. exact Hok.
Qed.

(** The start of the next month, from the fields of this one. *)
Lemma monthStart_next (year m : Z) :
  1 <= m <= 12 ->
  calendar.monthStart (12 * (year - 1) + (m - 1) + 1)
  = time.daysSinceEpoch year + time.daysBefore m
    + (if time.isLeap year && (2 <=? m) then 1 else 0).
Proof.
  intros Hm. unfold calendar.monthStart. cbv zeta.
  destruct (Z.eq_dec m 12) as [->|Hne].
  - replace ((12 * (year - 1) + (12 - 1) + 1) / 12) with year
      by (Z.to_euclidean_division_equations; lia).
    replace ((12 * (year - 1) + (12 - 1) + 1) mod 12) with 0
      by (Z.to_euclidean_division_equations; lia).
    replace (1 + year) with (year + 1) by lia.
    rewrite daysSinceEpoch_succ. unfold calendar.leapDay.
    destruct (time.isLeap year), (time.isLeap (year + 1));
      eval_calendar; cbn; lia.
  - replace ((12 * (year - 1) + (m - 1) + 1) / 12) with (year - 1)
      by (Z.to_euclidean_division_equations; lia).
    replace ((12 * (year - 1) + (m - 1) + 1) mod 12) with m
      by (Z.to_euclidean_division_equations; lia).
    replace (1 + (year - 1)) with year by lia.
    assert ((3 <=? m + 1) = (2 <=? m)) as ->.
    { destruct (Z.leb_spec 3 (m + 1)), (Z.leb_spec 2 m); lia || reflexivity. }
    reflexivity.
Qed.

(** An instant in terms of its month index and its day of the month, which
    the month has. *)
Lemma sec_monthStart_fits (t : time.Time) :
  0 <= time.nsec t < 1000000000 ->
  1 <= calendar.dayOfMonth t
  /\ calendar.monthStart (calendar.monthIndex t) + calendar.dayOfMonth t
     <= calendar.monthStart (calendar.monthIndex t + 1)
  /\ time.sec t / 86400
     = calendar.monthStart (calendar.monthIndex t)
       + (calendar.dayOfMonth t - 1).
Proof.
  intros Hns. unfold calendar.monthIndex, calendar.dayOfMonth, time.date.
  pose proof (absYearDay_spec (time.sec t / time.secondsPerDay)) as Hy.
  change time.secondsPerDay with 86400 in *.
  destruct (time.absYearDay _) as [year yday]. destruct Hy as [Hd Hyd].
  pose proof (monthDay_spec year yday Hyd) as Hm.
  pose proof (monthDay_fits_spec year yday Hyd) as Hf.
  destruct (time.monthDay year yday) as [month day].
  destruct Hm as (Hm & Hday & Hsum).
  rewrite monthStart_next by exact Hm.
  unfold calendar.monthStart. cbv zeta.
  replace (1 + (12 * (year - 1) + (month - 1)) / 12) with year
    by (Z.to_euclidean_division_equations; lia).
  replace ((12 * (year - 1) + (month - 1)) mod 12) with (month - 1)
    by (Z.to_euclidean_division_equations; lia).
  replace (month - 1 + 1) with month by lia.
  split; [lia|]. split; lia.
Qed.

Lemma monthStart_unique (M M' d d' : Z) :
  1 <= d <= 28 -> 1 <= d' ->
  calendar.monthStart M' + d' <= calendar.monthStart (M' + 1) ->
  calendar.monthStart M + d = calendar.monthStart M' + d' ->
  M' = M /\ d' = d.
Proof.
  intros Hd Hd' Hfit Heq.
  destruct (Z.lt_trichotomy M M') as [Hlt|[->|Hgt]].
  - exfalso. pose proof (monthStart_add M (M' - M) ltac:(lia)) as H.
    replace (M + (M' - M)) with M' in H by lia. lia.
  - split; [reflexivity|lia].
  - exfalso. pose proof (monthStart_add (M' + 1) (M - M' - 1) ltac:(lia)) as H.
    replace (M' + 1 + (M - M' - 1)) with M in H by lia. lia.
Qed.

Lemma day_and_second (a x : Z) :
  (a * 86400 + x mod 86400) / 86400 = a
  /\ (a * 86400 + x mod 86400) mod 86400 = x mod 86400.
Proof. Z.to_euclidean_division_equations. lia. Qed.

Lemma year_and_month (ye me M : Z) :
  1 <= me <= 12 -> 12 * (ye - 1) + (me - 1) = M ->
  ye = 1 + M / 12 /\ me = M mod 12 + 1.
Proof. intros Hme Heq. Z.to_euclidean_division_equations. lia. Qed.

(** The date of an instant from its month index and day of the month. *)
Lemma date_of_monthIndex (e : time.Time) :
  0 <= time.nsec e < 1000000000 ->
  time.date e
  = (1 + calendar.monthIndex e / 12, calendar.monthIndex e mod 12 + 1,
     calendar.dayOfMonth e).
Proof.
  intros Hns. pose proof (Date_date_clock e Hns) as Hr.
  unfold calendar.monthIndex, calendar.dayOfMonth.
  destruct (time.date e) as [[ye me] de].
  destruct (time.clock e) as [[? ?] ?].
  destruct Hr as (Hme & _).
  destruct (year_and_month ye me _ Hme eq_refl) as [Hy Hm].
  rewrite <- Hy, <- Hm. reflexivity.
Qed.

Lemma index_plus (year month n : Z) :
  1 <= month <= 12 ->
  1 + (12 * (year - 1) + (month - 1) + n) / 12
  = year + (month - 1 + n) / 12
  /\ (12 * (year - 1) + (month - 1) + n) mod 12 = (month - 1 + n) mod 12.
Proof. intros Hm. Z.to_euclidean_division_equations. lia. Qed.

(** The time of day is a function of the second of the day. *)
Lemma clock_second_of_day (a b : time.Time) :
  time.sec a mod 86400 = time.sec b mod 86400 -> time.clock a = time.clock b.
Proof.
  intros H. unfold time.clock, time.secondsPerDay. rewrite H. reflexivity.
Qed.



(** ** The handlers *)





Section Posting.

Context {S E : Type} `{svc : http.PasteService S E}.
Variable URL : api.Paste -> string.

(** X21: a request that [handleCreate] turns down changes nothing.  If
    the Content-Type is present and is not application/json, or the body
    does not decode, or more than one JSON object is sent, the reply is a
    415 or a 400, the service is not called and the shared generator is not
    reseeded. *)
Theorem handleCreate_rejection_changes_nothing
    (h : S) (rng : rand.Rand) (seed_now now : time.Time)
    (req : http.Request) :
  (http.ContentType req <> "" /\ http.ContentType req <> "application/json")
  \/ (exists err, http.decoded req = inl err)
  \/ http.rest_is_EOF req = false ->
  exists r,
    http.handleCreate URL h rng seed_now now req = (http.Replied r, h, rng)
    /\ (http.Status r = http.StatusUnsupportedMediaType
        \/ http.Status r = http.StatusBadRequest)
    /\ http.Location r = None.
Proof.
  intros Hrej. unfold http.handleCreate.
  destruct (negb (String.eqb (http.ContentType req) "")
            && negb (String.eqb (http.ContentType req) "application/json"))
    eqn:Hct.
  { eexists. split; [reflexivity|]. split; [left|]; reflexivity. }
  destruct (http.decoded req) as [err|data] eqn:Hdec.
  { eexists. split; [reflexivity|].
    destruct err; (split; [right|]; reflexivity). }
  destruct (http.rest_is_EOF req) eqn:Hrest.
  - exfalso. destruct Hrej as [[H1 H2]|[[err Herr]|Hr]]; try discriminate.
    apply String.eqb_neq in H1, H2. rewrite H1, H2 in Hct. discriminate.
  - eexists. split; [reflexivity|]. split; [right|]; reflexivity.
Qed.



End Posting.

(** X21 at the fixtures: a form posted as text. *)
Lemma handleCreate_rejection_changes_nothing_witness :
  exists r,
    http.handleCreate fixture.url fixture.burning fixture.nine fixture.june
      fixture.noon
      {| http.param_id := ""; http.ContentType := "text/plain";
         http.decoded := inr fixture.stale; http.rest_is_EOF := true |}
    = (http.Replied r, fixture.burning, fixture.nine)
    /\ (http.Status r = http.StatusUnsupportedMediaType
        \/ http.Status r = http.StatusBadRequest)
    /\ http.Location r = None.
Proof.
  apply (handleCreate_rejection_changes_nothing fixture.url fixture.burning
           fixture.nine fixture.june fixture.noon
           {| http.param_id := ""; http.ContentType := "text/plain";
              http.decoded := inr fixture.stale;
              http.rest_is_EOF := true |}).
  left. split; discriminate.
Defined.


(** X23: when [handleDelete] says not found.  The reply is 404 with the
    text paste not found exactly when the id does not decode or the
    service's [Delete] returns an error; in every other case it is an empty
    200.  The two causes of a 404 cannot be told apart by the reply. *)
Theorem handleDelete_not_found_iff
    {S E : Type} `{svc : http.PasteService S E}
    (decode : string -> option Z) (h : S) (req : http.Request) :
  (fst (http.handleDelete decode h req) = http.Replied http.notFound
   <-> decode (http.param_id req) = None
       \/ exists id e h', decode (http.param_id req) = Some id
                          /\ http.Delete h id = (Some e, h'))
  /\ (fst (http.handleDelete decode h req) = http.Replied http.notFound
      \/ fst (http.handleDelete decode h req)
         = http.Replied (http.respond http.StatusOK http.Empty)).
Proof.
  unfold http.handleDelete.
  destruct (decode (http.param_id req)) as [id|] eqn:Hid.
  - destruct (http.Delete h id) as [[e|] h'] eqn:Hdel; cbn [fst].
    + split; [|left; reflexivity]. split; [|reflexivity].
      intros _. right. eauto.
    + split; [|right; reflexivity]. split; [discriminate|].
      intros [?|(id' & e & h'' & [= <-] & Hd)]; congruence.
  - cbn [fst]. split; [|left; reflexivity]. split; [|reflexivity].
    intros _. left. reflexivity.
Qed.

(** X24: when [handlePaste] says not found.  The reply is 404 with the
    text paste not found exactly when the id does not decode or the
    service's [Paste] returns an error: an id that is malformed and one
    that is unknown get the same reply. *)
Theorem handlePaste_not_found_iff
    {S E : Type} `{svc : http.PasteService S E}
    (decode : string -> option Z) (h : S) (req : http.Request) :
  fst (http.handlePaste decode h req) = http.Replied http.notFound
  <-> decode (http.param_id req) = None
      \/ exists id p e h', decode (http.param_id req) = Some id
                           /\ http.Paste h id = (p, Some e, h').
Proof.
  unfold http.handlePaste.
  destruct (decode (http.param_id req)) as [id|] eqn:Hid.
  - destruct (http.Paste h id) as [[[p|] [e|]] h'] eqn:Hp; cbn [fst].
    + split; [|reflexivity]. intros _. right. eauto 6.
    + split.
      * destruct (api.DeleteAfterRead p); discriminate.
      * intros [?|(id' & q & e & h'' & [= <-] & Hq)]; congruence.
    + split; [|reflexivity]. intros _. right. eauto 6.
    + split; [discriminate|].
      intros [?|(id' & q & e & h'' & [= <-] & Hq)]; congruence.
  - cbn [fst]. split; [|reflexivity]. intros _. left. reflexivity.
Qed.

(** ** The MockStore of the tests *)

Lemma find_None {A : Type} (f : A -> bool) (l : list A) :
  List.find f l = None <-> forall x, x ∈ l -> f x = false.
Proof.
  induction l as [|a l IH]; simpl.
  - split; [|reflexivity]. intros _ x Hx. inversion Hx.
  - destruct (f a) eqn:Hfa.
    + split; [discriminate|]. intros H.
      rewrite (H a) in Hfa by constructor. discriminate.
    + rewrite IH. split.
      * intros H x Hx. apply elem_of_cons in Hx as [->|Hx]; auto.
      * intros H x Hx. apply H. constructor 2. exact Hx.
Qed.

Lemma find_Some {A : Type} (f : A -> bool) (l : list A) (x : A) :
  List.find f l = Some x -> x ∈ l /\ f x = true.
Proof.
  intros H. apply List.find_some in H as [Hin Hf].
  split; [apply list_elem_of_In; exact Hin|exact Hf].
Qed.

Lemma iteration_elem (s : auth.MockStore) (order : list api.User)
    (u : api.User) :
  auth.iteration s order ->
  u ∈ order <-> exists k, auth.users s !! k = Some u.
Proof.
  intros Hperm. unfold auth.iteration in Hperm. rewrite Hperm.
  rewrite list_elem_of_fmap. split.
  - intros ([k u'] & -> & Hin). apply elem_of_map_to_list in Hin. eauto.
  - intros [k Hk]. exists (k, u). split; [reflexivity|].
    apply elem_of_map_to_list. exact Hk.
Qed.

(** X25: what [MockStore.Find] finds.  In whatever order the map is
    visited, [Find] returns nil exactly when no stored user has the
    non-empty username, the non-empty email or the non-zero id of the
    query, and a user it returns is a stored user that has one of them. *)
Theorem MockStore_Find_spec (s : auth.MockStore) (order : list api.User)
    (usr : api.User) :
  auth.iteration s order ->
  (auth.Find order usr = None
   <-> forall k u, auth.users s !! k = Some u -> auth.matches usr u = false)
  /\ (forall u, auth.Find order usr = Some u ->
                auth.matches usr u = true
                /\ exists k, auth.users s !! k = Some u).
Proof.
  intros Hit. unfold auth.Find. split.
  - rewrite find_None. split.
    + intros H k u Hk. apply H. apply (iteration_elem s order u Hit). eauto.
    + intros H u Hu. apply (iteration_elem s order u Hit) in Hu as [k Hk].
      eapply H. exact Hk.
  - intros u Hu. apply find_Some in Hu as [Hin Hm]. split; [exact Hm|].
    apply (iteration_elem s order u Hit). exact Hin.
Qed.

(** X25 at the fixtures. *)
Lemma MockStore_Find_spec_witness :
  (auth.Find [fixture.bob; fixture.alice] (fixture.byID 6) = None
   <-> forall k u, auth.users fixture.mock !! k = Some u ->
                   auth.matches (fixture.byID 6) u = false)
  /\ (forall u,
        auth.Find [fixture.bob; fixture.alice] (fixture.byID 6) = Some u ->
        auth.matches (fixture.byID 6) u = true
        /\ exists k, auth.users fixture.mock !! k = Some u).
Proof.
  apply (MockStore_Find_spec fixture.mock [fixture.bob; fixture.alice]
           (fixture.byID 6)).
  unfold auth.iteration. vm_compute. apply perm_swap.
Defined.

Lemma matches_by_id (id : Z) (u : api.User) :
  auth.matches
    {| api.UserID_ := id; api.Username := ""; api.Email := "" |} u
  = negb (id =? 0) && (api.UserID_ u =? id).
Proof. unfold auth.matches. cbn. reflexivity. Qed.

(** X26: [Store] then [Find] by id.  [Store] keeps every user under its
    own id, and after [Store] of a user with a non-zero id, [Find] with a
    query that has only that id returns the user just stored, in whatever
    order the map is visited; a user stored earlier under the same id is
    replaced. *)
Theorem MockStore_Store_then_Find (s : auth.MockStore)
    (order : list api.User) (usr : api.User) :
  auth.keyed s -> api.UserID_ usr <> 0 ->
  auth.iteration (auth.Store s usr) order ->
  auth.keyed (auth.Store s usr)
  /\ auth.Find order
       {| api.UserID_ := api.UserID_ usr; api.Username := "";
          api.Email := "" |}
     = Some usr.
Proof.
  intros Hkeyed Hid Hit.
  assert (auth.keyed (auth.Store s usr)) as Hkeyed'.
  { intros k u. unfold auth.Store. cbn [auth.users].
    rewrite lookup_insert. case_decide as Hk.
    - intros [= <-]. exact Hk.
    - apply Hkeyed. }
  split; [exact Hkeyed'|].
  pose proof (MockStore_Find_spec _ order
                {| api.UserID_ := api.UserID_ usr; api.Username := "";
                   api.Email := "" |} Hit) as [Hnone Hsome].
  destruct (auth.Find order _) as [u|] eqn:Hfind.
  - destruct (Hsome u eq_refl) as [Hm [k Hk]].
    rewrite matches_by_id in Hm. apply andb_true_iff in Hm as [_ Hm].
    apply Z.eqb_eq in Hm. pose proof (Hkeyed' k u Hk) as Hku.
    unfold auth.Store in Hk. cbn [auth.users] in Hk.
    rewrite <- Hku, Hm in Hk. rewrite lookup_insert_eq in Hk. congruence.
  - exfalso. destruct Hnone as [Hn _]. specialize (Hn eq_refl).
    clear Hfind. rename Hn into Hfind.
    specialize (Hfind (api.UserID_ usr) usr).
    rewrite matches_by_id in Hfind.
    unfold auth.Store in Hfind. cbn [auth.users] in Hfind.
    rewrite lookup_insert_eq in Hfind. specialize (Hfind eq_refl).
    apply Z.eqb_neq in Hid. rewrite Hid, Z.eqb_refl in Hfind. discriminate.
Qed.

(** X26 at the fixtures: [fixture.bob] is stored over himself. *)
Lemma MockStore_Store_then_Find_witness :
  auth.keyed (auth.Store fixture.mock fixture.bob)
  /\ auth.Find [fixture.bob; fixture.alice]
       {| api.UserID_ := api.UserID_ fixture.bob; api.Username := "";
          api.Email := "" |}
     = Some fixture.bob.
Proof.
  apply (MockStore_Store_then_Find fixture.mock
           [fixture.bob; fixture.alice] fixture.bob).
  - unfold auth.keyed. apply (bool_decide_unpack _). vm_compute. exact I.
  - discriminate.
  - unfold auth.iteration. vm_compute. apply perm_swap.
Defined.
